(** * QuickDL: the Flask backend of the video downloader (src/app.py)

    A shallow embedding of the request-handling core of [app.py]: the two
    pure helpers [format_duration] and [get_quality_format_string], the
    option builder [get_ydl_opts], and the two handlers [get_video_info]
    and [download_video].  Python values are modelled by the type [pyval],
    exceptions by the [result] type, the option dictionaries (which the
    handlers mutate in place) by a store of dictionaries, and the external
    collaborators (yt-dlp, the file system, Flask's [send_file]) by the
    variables of a section. *)

From Stdlib Require Import ZArith String Ascii List Lia.
From Stdlib Require Import Decimal DecimalFacts DecimalPos DecimalN DecimalZ DecimalString SpecFloat.
From stdpp Require Import base tactics option list strings gmap.

Local Open Scope string_scope.
Local Open Scope Z_scope.

(** ** Python values *)

(** The JSON-like values that travel through the handlers.  A Python
    [dict] with string keys is an association list in insertion order
    (its string rendering depends on that order); a [float] is an IEEE
    binary64 number in the representation of [SpecFloat]. *)
#[warnings="-register-all"]
Inductive pyval : Type :=
| PyNone
| PyBool (b : bool)
| PyInt (n : Z)
| PyFloat (f : spec_float)
| PyStr (s : string)
| PyList (l : list pyval)
| PyDict (d : list (string * pyval)).

(** Exceptions: the class name and the text that [str(error)] gives. *)
Record exn : Type := Exn { exn_class : string; exn_str : string }.

(** The classes that derive from [BaseException] without deriving from
    [Exception]: the built-in ones, and the cancellation of a task. *)
Definition base_only_classes : list string :=
  ["BaseException"; "BaseExceptionGroup"; "GeneratorExit"; "KeyboardInterrupt";
   "SystemExit"; "CancelledError"].

(** [isinstance(error, Exception)]: what an [except Exception] clause
    catches.  Every other class, those of yt-dlp, Werkzeug and Flask
    included, derives from [Exception]. *)
Definition is_exception (e : exn) : bool :=
  negb (existsb (String.eqb (exn_class e)) base_only_classes).

Inductive result (A : Type) : Type :=
| Ok (a : A)
| Raise (e : exn).
Arguments Ok {A} a.
Arguments Raise {A} e.

Definition raises {A} (r : result A) : Prop :=
  match r with Ok _ => False | Raise _ => True end.

(** An exception ends the sequence of statements. *)
#[global] Instance result_ret : MRet result := λ A a, Ok a.

#[global] Instance result_bind : MBind result := λ A B k r,
  match r with
  | Ok a => k a
  | Raise e => Raise e
  end.

(** ** Strings *)

Module Str.

(** [s.replace(old, new)] for a non-empty [old]: scan from the left, and
    at every occurrence of [old] emit [new] and skip the occurrence. *)
Fixpoint replace_from (old new : string) (skip : nat) (s : string) : string :=
  match s with
  | EmptyString => EmptyString
  | String c s' =>
      match skip with
      | S k => replace_from old new k s'
      | O =>
          if String.prefix old s
          then new +:+ replace_from old new (String.length old - 1) s'
          else String c (replace_from old new 0 s')
      end
  end.

(** With an empty [old], Python puts [new] around every character. *)
Fixpoint intersperse (new s : string) : string :=
  match s with
  | EmptyString => new
  | String c s' => new +:+ String c (intersperse new s')
  end.

Definition replace (old new s : string) : string :=
  match old with
  | EmptyString => intersperse new s
  | String _ _ => replace_from old new 0 s
  end.

(** [x in [a; b; ...]] on strings. *)
Definition mem (x : string) (l : list string) : bool :=
  existsb (String.eqb x) l.

(** The characters of [s] other than [c], in order. *)
Fixpoint without (c : ascii) (s : string) : string :=
  match s with
  | EmptyString => EmptyString
  | String a s' => if Ascii.eqb a c then without c s' else String a (without c s')
  end.

Fixpoint occurs (c : ascii) (s : string) : bool :=
  match s with
  | EmptyString => false
  | String a s' => Ascii.eqb a c || occurs c s'
  end.

End Str.

(** ** The Format Selector *)

(** [get_quality_format_string], lines 79-92. *)
Definition get_quality_format_string (quality : string) : string :=
  let height := Str.replace "p" "" quality in
  if Str.mem height ["1080"; "720"; "480"; "360"]
  then "bestvideo[height<=" +:+ height +:+ "]+bestaudio/best[height<=" +:+ height +:+ "]"
  else "best".

(** The spec's words for the two outcomes. *)
Definition height_capped (H : string) : string :=
  "bestvideo[height<=" +:+ H +:+ "]+bestaudio/best[height<=" +:+ H +:+ "]".

Definition quality_labels : list string := ["1080p"; "720p"; "480p"; "360p"].
Definition heights : list string := ["1080"; "720"; "480"; "360"].

(** ** Number formatting *)

(** [str(n)] and [f"{n}"] for an [int]: the decimal digits, with a minus
    sign for a negative number and no padding. *)
Definition format_int (n : Z) : string :=
  NilZero.string_of_int (Z.to_int n).

Fixpoint zeros (k : nat) : string :=
  match k with
  | O => ""
  | S k' => String "0" (zeros k')
  end.

(** [f"{n:0Wd}"]: the sign, then zeros up to the width [W], then the
    digits (the padding goes between the sign and the digits). *)
Definition format_int_zero_padded (width : nat) (n : Z) : string :=
  let sign := if n <? 0 then "-" else "" in
  let digits := format_int (Z.abs n) in
  sign +:+ zeros (width - String.length sign - String.length digits) +:+ digits.

(** Decimal digits, for the statements about the renderings. *)

Definition digit (d : Z) : ascii := ascii_of_N (48 + Z.to_N d).

(** The spec's words for the seconds: two digits, tens then units. *)
Definition two_digits (n : Z) : string :=
  String (digit (n / 10)) (String (digit (n mod 10)) "").

(** Reading a decimal numeral back. *)
Definition read_int (s : string) : option Z :=
  Z.of_int <$> NilZero.int_of_string s.

(** ** Binary64 arithmetic, as CPython's [floatobject.c] does it *)

Module Float.

Definition prec : Z := 53.
Definition emax : Z := 1024.

Definition add := SFadd prec emax.
Definition sub := SFsub prec emax.
Definition div := SFdiv prec emax.
Definition ltb := SFltb.
Definition eqb := SFeqb.

Definition zero : spec_float := S754_zero false.
Definition one : spec_float := binary_normalize prec emax 1 0 false.
Definition half : spec_float := binary_normalize prec emax 1 (-1) false.

(** The nearest double of an integer (round to nearest, ties to even). *)
Definition of_Z (n : Z) : spec_float := binary_normalize prec emax n 0 false.

Definition sign_bit (x : spec_float) : bool :=
  match x with
  | S754_zero s | S754_infinity s | S754_finite s _ _ => s
  | S754_nan => false
  end.

(** C's [if (x)] on a double: everything but the two zeros. *)
Definition nonzero (x : spec_float) : bool :=
  match x with S754_zero _ => false | _ => true end.

(** C's [fmod]: the exact remainder of the truncated division, with the
    sign of the dividend. *)
Definition fmod (x y : spec_float) : spec_float :=
  match x, y with
  | S754_nan, _ | _, S754_nan => S754_nan
  | S754_infinity _, _ => S754_nan
  | _, S754_zero _ => S754_nan
  | S754_zero _, _ => x
  | S754_finite _ _ _, S754_infinity _ => x
  | S754_finite sx mx ex, S754_finite _ my ey =>
      let e := Z.min ex ey in
      let X := Zpos mx * 2 ^ (ex - e) in
      let Y := Zpos my * 2 ^ (ey - e) in
      binary_normalize prec emax (cond_Zopp sx (X mod Y)) e sx
  end.

(** C's [floor]. *)
Definition floor (x : spec_float) : spec_float :=
  match x with
  | S754_finite s m e =>
      if 0 <=? e then x
      else binary_normalize prec emax (cond_Zopp s (Zpos m) / 2 ^ (- e)) 0 s
  | _ => x
  end.

(** [_float_div_mod]: the pair of [floordiv] and [mod]. *)
Definition div_mod (vx wx : spec_float) : spec_float * spec_float :=
  let mod0 := fmod vx wx in
  let div0 := div (sub vx mod0) wx in
  let '(mod1, div1) :=
    if nonzero mod0 then
      if negb (Bool.eqb (ltb wx zero) (ltb mod0 zero))
      then (add mod0 wx, sub div0 one)
      else (mod0, div0)
    else (S754_zero (sign_bit wx), div0) in
  let floordiv :=
    if nonzero div1 then
      let fl := floor div1 in
      if ltb half (sub div1 fl) then add fl one else fl
    else S754_zero (sign_bit (div vx wx)) in
  (floordiv, mod1).

(** [float_rem]. *)
Definition rem (vx wx : spec_float) : spec_float :=
  let mod0 := fmod vx wx in
  if nonzero mod0 then
    if negb (Bool.eqb (ltb wx zero) (ltb mod0 zero)) then add mod0 wx else mod0
  else S754_zero (sign_bit wx).

(** [int(x)]: truncation towards zero; no integer for NaN or infinity. *)
Definition to_Z (x : spec_float) : result Z :=
  match x with
  | S754_nan => Raise (Exn "ValueError" "cannot convert float NaN to integer")
  | S754_infinity _ => Raise (Exn "OverflowError" "cannot convert float infinity to integer")
  | S754_zero _ => Ok 0
  | S754_finite s m e =>
      Ok (if 0 <=? e then cond_Zopp s (Zpos m) * 2 ^ e
          else Z.quot (cond_Zopp s (Zpos m)) (2 ^ (- e)))
  end.

End Float.

(** ** Exact values of floats

    Every finite binary64 number is a whole multiple of 2^-1074; the
    statements about float durations measure values in that unit. *)

Definition float_units (f : spec_float) : Z :=
  match f with
  | S754_finite s m e => cond_Zopp s (Zpos m) * 2 ^ (e + 1074)
  | _ => 0
  end.

(** The spec's words on a float [f] denoting the real number D:
    floor(D/d) and floor(D mod d), computed exactly. *)
Definition exact_floor_div (f : spec_float) (d : Z) : Z :=
  float_units f / (d * 2 ^ 1074).

Definition exact_floor_mod (f : spec_float) (d : Z) : Z :=
  (float_units f mod (d * 2 ^ 1074)) / 2 ^ 1074.

(** The well-formed finite doubles D with 0 <= D < 2^53. *)
Definition small_duration (f : spec_float) : bool :=
  match f with
  | S754_zero _ => true
  | S754_finite false m e => bounded 53 1024 m e && (Zpos m * 2 ^ (e + 1074) <? 2 ^ 1127)
  | _ => false
  end.

(** A non-negative float whose value is [S] units of 2^-1074. *)
Definition holds (f : spec_float) (S : Z) : Prop :=
  match f with
  | S754_zero _ => S = 0
  | S754_finite false m e => -1074 ≤ e ∧ Zpos m * 2 ^ (e + 1074) = S
  | _ => False
  end.

(** The double 60.0. *)
Definition sixty : spec_float := S754_finite false 8444249301319680 (-47).

(** ** Numbers *)

(** The instances of [int] and [float]; a [bool] is an [int]. *)
Inductive number : Type :=
| NInt (n : Z)
| NFloat (f : spec_float).

(** [isinstance(v, (int, float))], with the number when it holds. *)
Definition as_number (v : pyval) : option number :=
  match v with
  | PyInt n => Some (NInt n)
  | PyBool b => Some (NInt (Z.b2z b))
  | PyFloat f => Some (NFloat f)
  | _ => None
  end.

Definition int_to_float (d : Z) : result spec_float :=
  match Float.of_Z d with
  | S754_infinity _ => Raise (Exn "OverflowError" "int too large to convert to float")
  | w => Ok w
  end.

(** [x // d] for an [int] divisor [d]. *)
Definition floordiv (x : number) (d : Z) : result number :=
  match x with
  | NInt n =>
      if d =? 0 then Raise (Exn "ZeroDivisionError" "integer division or modulo by zero")
      else Ok (NInt (n / d))
  | NFloat f =>
      match int_to_float d with
      | Raise e => Raise e
      | Ok w =>
          if Float.nonzero w then Ok (NFloat (fst (Float.div_mod f w)))
          else Raise (Exn "ZeroDivisionError" "float floor division by zero")
      end
  end.

(** [x % d] for an [int] divisor [d]. *)
Definition modulo (x : number) (d : Z) : result number :=
  match x with
  | NInt n =>
      if d =? 0 then Raise (Exn "ZeroDivisionError" "integer division or modulo by zero")
      else Ok (NInt (n mod d))
  | NFloat f =>
      match int_to_float d with
      | Raise e => Raise e
      | Ok w =>
          if Float.nonzero w then Ok (NFloat (Float.rem f w))
          else Raise (Exn "ZeroDivisionError" "float modulo")
      end
  end.

(** [int(x)]. *)
Definition to_int (x : number) : result Z :=
  match x with
  | NInt n => Ok n
  | NFloat f => Float.to_Z f
  end.

(** ** String renderings of values *)

Fixpoint join (sep : string) (l : list string) : string :=
  match l with
  | [] => ""
  | [x] => x
  | x :: l' => x +:+ sep +:+ join sep l'
  end.

Section Rendering.

(** [repr] of a [str] (quoting and escaping) and of a [float] (shortest
    round-trip digits) are CPython's own; they are parameters here. *)
Variable repr_str : string → string.
Variable repr_float : spec_float → string.

Fixpoint py_repr (v : pyval) : string :=
  match v with
  | PyNone => "None"
  | PyBool true => "True"
  | PyBool false => "False"
  | PyInt n => format_int n
  | PyFloat f => repr_float f
  | PyStr s => repr_str s
  | PyList l => "[" +:+ join ", " (map py_repr l) +:+ "]"
  | PyDict d =>
      "{" +:+ join ", " (map (λ kv, repr_str (fst kv) +:+ ": " +:+ py_repr (snd kv)) d) +:+ "}"
  end.

(** [str(v)]. *)
Definition py_str (v : pyval) : string :=
  match v with
  | PyStr s => s
  | _ => py_repr v
  end.

(** ** The Duration rule *)

(** [format_duration], lines 34-49. *)
Definition format_duration (duration_seconds : pyval) : result string :=
  match as_number duration_seconds with
  | None => Ok (py_str duration_seconds)
  | Some d =>
      minutes ← floordiv d 60 ≫= to_int;
      seconds ← modulo d 60 ≫= to_int;
      mret (format_int minutes +:+ ":" +:+ format_int_zero_padded 2 seconds)
  end.

End Rendering.

(** ** Operations on values *)

Fixpoint assoc {A} (key : string) (l : list (string * A)) : option A :=
  match l with
  | [] => None
  | (k, v) :: l' => if String.eqb k key then Some v else assoc key l'
  end.

Fixpoint is_substring (sub s : string) : bool :=
  String.prefix sub s ||
  match s with
  | EmptyString => false
  | String _ s' => is_substring sub s'
  end.

Definition type_name (v : pyval) : string :=
  match v with
  | PyNone => "NoneType"
  | PyBool _ => "bool"
  | PyInt _ => "int"
  | PyFloat _ => "float"
  | PyStr _ => "str"
  | PyList _ => "list"
  | PyDict _ => "dict"
  end.

(** Truth value testing, as [if not v] does it. *)
Definition truthy (v : pyval) : bool :=
  match v with
  | PyNone => false
  | PyBool b => b
  | PyInt n => negb (n =? 0)
  | PyFloat f => Float.nonzero f
  | PyStr s => negb (String.eqb s "")
  | PyList l => match l with [] => false | _ => true end
  | PyDict d => match d with [] => false | _ => true end
  end.

(** [v.get(key, default)]: only a [dict] has the method. *)
Definition dict_get (v : pyval) (key : string) (default : pyval) : result pyval :=
  match v with
  | PyDict d => Ok (match assoc key d with Some x => x | None => default end)
  | _ => Raise (Exn "AttributeError"
                  ("'" +:+ type_name v +:+ "' object has no attribute 'get'"))
  end.

(** [key in v] for a [str] key. *)
Definition contains (v : pyval) (key : string) : result bool :=
  match v with
  | PyDict d => Ok (match assoc key d with Some _ => true | None => false end)
  | PyList l =>
      Ok (existsb (λ x, match x with PyStr s => String.eqb s key | _ => false end) l)
  | PyStr s => Ok (is_substring key s)
  | _ => Raise (Exn "TypeError"
                  ("argument of type '" +:+ type_name v +:+ "' is not iterable"))
  end.

Definition not_subscriptable {A} (v : pyval) : result A :=
  Raise (Exn "TypeError" ("'" +:+ type_name v +:+ "' object is not subscriptable")).

Section Subscript.

Variable repr_str : string → string.

(** [v[key]] for a [str] key. *)
Definition getitem_key (v : pyval) (key : string) : result pyval :=
  match v with
  | PyDict d =>
      match assoc key d with
      | Some x => Ok x
      | None => Raise (Exn "KeyError" (repr_str key))
      end
  | PyList _ =>
      Raise (Exn "TypeError" "list indices must be integers or slices, not str")
  | PyStr _ => Raise (Exn "TypeError" "string indices must be integers, not 'str'")
  | _ => not_subscriptable v
  end.

(** [v[i]] for an [int] index; a negative index counts from the end. *)
Definition getitem_index (v : pyval) (i : Z) : result pyval :=
  match v with
  | PyList l =>
      let j := if i <? 0 then i + Z.of_nat (length l) else i in
      if j <? 0 then Raise (Exn "IndexError" "list index out of range")
      else match nth_error l (Z.to_nat j) with
           | Some x => Ok x
           | None => Raise (Exn "IndexError" "list index out of range")
           end
  | PyStr s =>
      let j := if i <? 0 then i + Z.of_nat (String.length s) else i in
      if j <? 0 then Raise (Exn "IndexError" "string index out of range")
      else match String.get (Z.to_nat j) s with
           | Some c => Ok (PyStr (String c ""))
           | None => Raise (Exn "IndexError" "string index out of range")
           end
  | PyDict _ => Raise (Exn "KeyError" (format_int i))
  | _ => not_subscriptable v
  end.

End Subscript.

(** ** [os.path] on POSIX *)

Module Path.

Fixpoint ends_with_sep (s : string) : bool :=
  match s with
  | EmptyString => false
  | String c EmptyString => Ascii.eqb c "/"
  | String _ s' => ends_with_sep s'
  end.

(** [os.path.join(a, b)]. *)
Definition join (a b : string) : string :=
  if String.prefix "/" b then b
  else if String.eqb a "" || ends_with_sep a then a +:+ b
  else a +:+ "/" +:+ b.

(** [s.rfind(c)]: the last index of the character, or -1. *)
Fixpoint rfind (c : ascii) (s : string) : Z :=
  match s with
  | EmptyString => -1
  | String a s' =>
      let r := rfind c s' in
      if 0 <=? r then r + 1 else if Ascii.eqb a c then 0 else -1
  end.

(** The loop of [_splitext] that skips the leading dots of the file
    name: [n] is the number of indices left before [dotIndex]; the
    result is the pair the loop returns, if it returns. *)
Fixpoint skip_leading_dots (p : string) (dotIndex : nat) (n : nat) (filenameIndex : nat)
  : option (string * string) :=
  match n with
  | O => None
  | S n' =>
      match String.get filenameIndex p with
      | Some "."%char => skip_leading_dots p dotIndex n' (S filenameIndex)
      | _ => Some (substring 0 dotIndex p, substring dotIndex (String.length p - dotIndex) p)
      end
  end.

(** [os.path.splitext(p)]. *)
Definition splitext (p : string) : string * string :=
  let sepIndex := rfind "/" p in
  let dotIndex := rfind "." p in
  if sepIndex <? dotIndex then
    let filenameIndex := sepIndex + 1 in
    match skip_leading_dots p (Z.to_nat dotIndex)
            (Z.to_nat (dotIndex - filenameIndex)) (Z.to_nat filenameIndex) with
    | Some r => r
    | None => (p, "")
    end
  else (p, "").

End Path.

(** ** The world: dictionary objects and the console *)

(** The option dictionaries are objects: [get_ydl_opts] creates one and
    updates it in place, and [download_video] assigns to one of its keys
    afterwards.  [heap] maps the address of a dictionary to its contents;
    [stdout] holds the lines printed so far. *)
Record world : Type := World {
  heap : gmap nat (gmap string pyval);
  stdout : list string
}.

Definition M (A : Type) : Type := world → result A * world.

#[global] Instance M_ret : MRet M := λ A a w, (Ok a, w).

#[global] Instance M_bind : MBind M := λ A B k m w,
  match m w with
  | (Ok a, w') => k a w'
  | (Raise e, w') => (Raise e, w')
  end.

Definition lift {A} (r : result A) : M A := λ w, (r, w).

(** [try: body / except Exception as error: handler].  An exception that
    is not an instance of [Exception] passes the clause and leaves the
    statement. *)
Definition try_except {A} (body : M A) (handler : exn → M A) : M A := λ w,
  match body w with
  | (Ok a, w') => (Ok a, w')
  | (Raise error, w') =>
      if is_exception error then handler error w' else (Raise error, w')
  end.

Definition contents (w : world) (l : nat) : gmap string pyval :=
  default ∅ (heap w !! l).

(** A dictionary display [{...}]: a new object at an unused address. *)
Definition new_dict (d : gmap string pyval) : M nat := λ w,
  let l := fresh (dom (heap w)) in
  (Ok l, World (<[l := d]> (heap w)) (stdout w)).

(** [d.update(other)]: the keys of [other] win. *)
Definition dict_update (l : nat) (other : gmap string pyval) : M unit := λ w,
  (Ok (), World (<[l := other ∪ contents w l]> (heap w)) (stdout w)).

(** [d[key] = v]. *)
Definition dict_setitem (l : nat) (key : string) (v : pyval) : M unit := λ w,
  (Ok (), World (<[l := <[key := v]> (contents w l)]> (heap w)) (stdout w)).

(** The contents of a dictionary, as a callee reads them. *)
Definition dict_load (l : nat) : M (gmap string pyval) := λ w,
  (Ok (contents w l), w).

Definition print (line : string) : M unit := λ w,
  (Ok (), World (heap w) (stdout w ++ [line])).

(** ** Constants, lines 13-24 *)

Definition DOWNLOAD_DIR : string := "downloads".
Definition DEFAULT_QUALITY : string := "1080p".
Definition HTTP_OK : Z := 200.
Definition HTTP_BAD_REQUEST : Z := 400.
Definition HTTP_INTERNAL_SERVER_ERROR : Z := 500.
Definition ERR_URL_REQUIRED : string := "URL is required".
Definition ERR_FETCH_INFO : string := "Could not fetch video info. Please check the URL.".
Definition ERR_FILE_NOT_FOUND : string := "File not found after download".

(** ** The Option Builder *)

(** [get_ydl_opts], lines 52-76.  A missing [output_template] is [None]. *)
Definition get_ydl_opts (download : bool) (output_template : pyval) : M nat :=
  opts ← new_dict (<["no_warnings" := PyBool true]> (<["quiet" := PyBool true]> ∅));
  (if download then
     dict_update opts
       (<["merge_output_format" := PyStr "mp4"]>
        (<["outtmpl" := output_template]>
         (<["format" := PyStr "bestvideo[height<=1080]+bestaudio/best[height<=1080]"]>
          (<["quiet" := PyBool false]> ∅))))
   else mret ());;
  mret opts.

(** ** The handlers *)

(** What a handler returns: [jsonify(body), status], or the response of
    [send_file(filename, as_attachment=True)]. *)
Inductive response : Type :=
| Json (status : Z) (body : list (string * pyval))
| Attachment (filename : pyval).

Section Handlers.

Variable repr_str : string → string.
Variable repr_float : spec_float → string.

(** [int(time.time())] at the time of the request. *)
Variable timestamp : Z.

(** [with yt_dlp.YoutubeDL(opts) as ydl: ydl.extract_info(url, download)]. *)
Variable extract_info : gmap string pyval → pyval → bool → result pyval.

(** [ydl.prepare_filename(info)]. *)
Variable prepare_filename : gmap string pyval → pyval → result string.

(** [os.path.exists] and Flask's [send_file]. *)
Variable path_exists : pyval → result bool.
Variable send_file : pyval → result unit.

(** The dictionary [video_data] of [get_video_info], lines 120-126. *)
Definition video_data (url info : pyval) : result (list (string * pyval)) :=
  title ← dict_get info "title" (PyStr "Unknown Title");
  thumbnail ← dict_get info "thumbnail" (PyStr "");
  duration_seconds ← dict_get info "duration" PyNone;
  duration ← format_duration repr_str repr_float duration_seconds;
  author ← dict_get info "uploader" (PyStr "Unknown Author");
  webpage_url ← dict_get info "webpage_url" url;
  mret [("title", title);
        ("thumbnail", thumbnail);
        ("duration", PyStr duration);
        ("author", author);
        ("webpage_url", webpage_url)].

(** [get_video_info], lines 101-131.  [get_json] is what
    [request.get_json()] does for the request: it returns the parsed body,
    or raises the error Flask has for a body that is not JSON.  That call
    and [data.get] stand before the [try]. *)
Definition get_video_info (get_json : result pyval) : M response :=
  data ← lift get_json;
  url ← lift (dict_get data "url" PyNone);
  if negb (truthy url) then
    mret (Json HTTP_BAD_REQUEST [("error", PyStr ERR_URL_REQUIRED)])
  else
    try_except
      (opts ← get_ydl_opts false PyNone;
       o ← dict_load opts;
       info ← lift (extract_info o url false);
       body ← lift (video_data url info);
       mret (Json HTTP_OK body))
      (λ error,
         print ("Error fetching info: " +:+ exn_str error);;
         mret (Json HTTP_BAD_REQUEST [("error", PyStr ERR_FETCH_INFO)])).

(** The branch of [download_video] that resolves the final file name,
    lines 162-170. *)
Definition resolve_filename (o : gmap string pyval) (info : pyval) : result pyval :=
  has_downloads ← contains info "requested_downloads";
  if (has_downloads : bool) then
    downloads ← getitem_key repr_str info "requested_downloads";
    first ← getitem_index downloads 0;
    getitem_key repr_str first "filepath"
  else
    filename ← prepare_filename o info;
    let '(base, ext) := Path.splitext filename in
    if negb (String.eqb ext ".mp4") then mret (PyStr (base +:+ ".mp4"))
    else mret (PyStr filename).

(** The end of [download_video], lines 172-178: the existence check and
    the attachment, with the inner [except Exception as file_error]. *)
Definition deliver (filename : pyval) : result response :=
  found ← (if truthy filename then path_exists filename else mret false);
  if (found : bool) then
    match send_file filename with
    | Ok _ => mret (Attachment filename)
    | Raise file_error =>
        if is_exception file_error then
          mret (Json HTTP_INTERNAL_SERVER_ERROR [("error", PyStr (exn_str file_error))])
        else Raise file_error
    end
  else
    mret (Json HTTP_INTERNAL_SERVER_ERROR [("error", PyStr ERR_FILE_NOT_FOUND)]).

(** The output template of a download, line 152. *)
Definition output_template : string :=
  Path.join DOWNLOAD_DIR ("%(title)s_" +:+ format_int timestamp +:+ ".%(ext)s").

(** [download_video], lines 134-182; [args] is [request.args]. *)
Definition download_video (args : list (string * string)) : M response :=
  let url := match assoc "url" args with Some u => PyStr u | None => PyNone end in
  let quality := match assoc "quality" args with Some q => q | None => DEFAULT_QUALITY end in
  if negb (truthy url) then
    mret (Json HTTP_BAD_REQUEST [("error", PyStr ERR_URL_REQUIRED)])
  else
    try_except
      (opts ← get_ydl_opts true (PyStr output_template);
       dict_setitem opts "format" (PyStr (get_quality_format_string quality));;
       o ← dict_load opts;
       info ← lift (extract_info o url true);
       filename ← lift (resolve_filename o info);
       lift (deliver filename))
      (λ error,
         print ("Download error: " +:+ exn_str error);;
         mret (Json HTTP_INTERNAL_SERVER_ERROR [("error", PyStr (exn_str error))])).

End Handlers.

(** ** What a run of a handler gives *)

Definition outcome {A} (m : M A) (w : world) : result A := fst (m w).
Definition printed {A} (m : M A) (w : world) : list string := stdout (snd (m w)).

(** The contents of the two dictionaries [get_ydl_opts] builds. *)
Definition info_options : gmap string pyval :=
  <["no_warnings" := PyBool true]> (<["quiet" := PyBool true]> ∅).

Definition download_options (output_template : pyval) : gmap string pyval :=
  <["merge_output_format" := PyStr "mp4"]>
    (<["outtmpl" := output_template]>
       (<["format" := PyStr "bestvideo[height<=1080]+bestaudio/best[height<=1080]"]>
          (<["quiet" := PyBool false]> ∅))) ∪ info_options.

Definition built_options (download : bool) (output_template : pyval) : gmap string pyval :=
  if download then download_options output_template else info_options.

(** The dictionary [download_video] hands to [YoutubeDL]: the built options
    with the format overridden. *)
Definition request_options (timestamp : Z) (quality : string) : gmap string pyval :=
  <["format" := PyStr (get_quality_format_string quality)]>
    (download_options (PyStr (output_template timestamp))).

(** ** Sample renderings

    Concrete instances need some [repr]; the statements below hold for
    every choice. *)

Module Sample.

(** [repr] of a string without quotes, backslashes or control characters. *)
Definition repr_str (s : string) : string := "'" +:+ s +:+ "'".

(** [repr] of the floats that have no digits. *)
Definition repr_float (f : spec_float) : string :=
  match f with
  | S754_infinity false => "inf"
  | S754_infinity true => "-inf"
  | _ => "nan"
  end.

Definition empty_world : world := World ∅ [].

(** The double 754.5. *)
Definition seconds_754_5 : spec_float := binary_normalize 53 1024 1509 (-1) false.

(** An extractor that fails, and one that returns a given result. *)
Definition failing_extractor (o : gmap string pyval) (url : pyval) (download : bool)
  : result pyval :=
  Raise (Exn "DownloadError" "ERROR: Unsupported URL").

Definition extractor (info : pyval) (o : gmap string pyval) (url : pyval) (download : bool)
  : result pyval :=
  Ok info.

Definition untimed_video : list (string * pyval) :=
  [("title", PyStr "Clip"); ("uploader", PyStr "Someone")].

Definition downloaded_video : list (string * pyval) :=
  [("title", PyStr "Clip");
   ("requested_downloads",
    PyList [PyDict [("filepath", PyStr "downloads/Clip_1700000000.mp4")]])].

Definition prepare_filename (o : gmap string pyval) (info : pyval) : result string :=
  Ok "downloads/Clip_1700000000.mkv".

Definition path_exists (filename : pyval) : result bool := Ok true.
Definition send_file (filename : pyval) : result unit := Ok ().

End Sample.

(** ** More samples, for the concrete instances below *)

Module Sample2.

(** A file system without the file, and a [send_file] that fails. *)
Definition path_missing (filename : pyval) : result bool := Ok false.

Definition send_file_denied (filename : pyval) : result unit :=
  Raise (Exn "PermissionError" "[Errno 13] Permission denied").

Definition timed_video : list (string * pyval) :=
  [("title", PyStr "Clip"); ("duration", PyInt 754);
   ("webpage_url", PyStr "https://example.com/watch?v=1")].

Definition endless_video : list (string * pyval) :=
  [("title", PyStr "Live"); ("duration", PyFloat (S754_infinity false))].

Definition nothing_downloaded : list (string * pyval) :=
  [("title", PyStr "Clip"); ("requested_downloads", PyList [])].


(** A world in which a dictionary exists and a line was printed. *)
Definition busy_world : world :=
  World (<[0%nat := info_options]> ∅) ["Starting"].


(** A [send_file] interrupted from the keyboard. *)
Definition send_file_interrupted (filename : pyval) : result unit :=
  Raise (Exn "KeyboardInterrupt" "").

(** What [request.get_json()] raises for a request without a JSON body. *)
Definition not_json : exn :=
  Exn "UnsupportedMediaType"
      "415 Unsupported Media Type: Did not attempt to load JSON data because the request Content-Type was not 'application/json'.".

(** A template expansion with a dot in the title and the extension webm. *)
Definition prepare_webm (o : gmap string pyval) (info : pyval) : result string :=
  Ok "downloads/My.Clip_1700000000.webm".

End Sample2.

(** The five expressions the Format Selector can return. *)
Definition selectable_formats : list string :=
  "best" :: map height_capped heights.

(** ** Lemmas on strings *)

Lemma append_nil_l (s : string) : "" +:+ s = s.
Proof. reflexivity. Qed.

Lemma append_cons (c : ascii) (s t : string) : String c s +:+ t = String c (s +:+ t).
Proof. reflexivity. Qed.

Lemma append_nil_r (s : string) : s +:+ "" = s.
Proof. induction s as [|c s IH]; [done|]. by rewrite append_cons, IH. Qed.

Lemma replace_char_without (c : ascii) (s : string) :
  Str.replace (String c "") "" s = Str.without c s.
Proof.
  unfold Str.replace. induction s as [|a s IH]; [done|].
  cbn [Str.replace_from Str.without String.prefix String.length].
  destruct (ascii_dec c a) as [->|Hne].
  - rewrite Ascii.eqb_refl. destruct s; rewrite append_nil_l; exact IH.
  - rewrite (proj2 (Ascii.eqb_neq a c)) by congruence. by rewrite IH.
Qed.

Lemma without_append (c : ascii) (s t : string) :
  Str.without c (s +:+ t) = Str.without c s +:+ Str.without c t.
Proof.
  induction s as [|a s IH]; [done|].
  rewrite append_cons. cbn [Str.without]. destruct (Ascii.eqb a c); [done|].
  by rewrite append_cons, IH.
Qed.

Lemma without_absent (c : ascii) (s : string) :
  Str.occurs c s = false → Str.without c s = s.
Proof.
  induction s as [|a s IH]; [done|]. cbn. destruct (Ascii.eqb a c); [done|].
  cbn. intros H. by rewrite IH.
Qed.

Lemma mem_In (x : string) (l : list string) : Str.mem x l = true ↔ In x l.
Proof.
  unfold Str.mem. rewrite existsb_exists. split.
  - intros (y & Hy & Heq). apply String.eqb_eq in Heq. by subst.
  - intros H. exists x. split; [done|]. apply String.eqb_refl.
Qed.

(** ** C1: the Format Selector *)

Lemma selector_by_height (q : string) :
  get_quality_format_string q =
    if Str.mem (Str.without "p" q) heights
    then height_capped (Str.without "p" q) else "best".
Proof.
  unfold get_quality_format_string.
  change (Str.replace "p" "" q) with (Str.replace (String "p"%char "") "" q).
  by rewrite replace_char_without.
Qed.

Lemma selector_capped_not_best (H : string) : height_capped H ≠ "best".
Proof. unfold height_capped. destruct H; discriminate. Qed.

(** C1 (as amended): the selector drops every occurrence of the letter p,
    not only a trailing one, and looks the rest up among the four heights:
    a label whose p-free rest is one of 1080, 720, 480, 360 gets the
    height-capped expression for that height, every other label gets
    "best"; in particular a label made of a p-free text and a final p is
    capped exactly when the text is one of the four heights; so the four
    labels 1080p, 720p, 480p, 360p are capped at their heights, and the
    empty label, 4k and 1080P get "best". *)
Theorem format_selector_drops_every_p :
  (∀ q, Str.replace "p" "" q = Str.without "p" q) ∧
  (∀ h, Str.occurs "p" h = false →
        get_quality_format_string (h +:+ "p") =
          if Str.mem h heights then height_capped h else "best") ∧
  (∀ q, In (Str.without "p" q) heights →
        get_quality_format_string q = height_capped (Str.without "p" q)) ∧
  (∀ q, ¬ In (Str.without "p" q) heights → get_quality_format_string q = "best") ∧
  (get_quality_format_string "1080p" = height_capped "1080" ∧
   get_quality_format_string "720p" = height_capped "720" ∧
   get_quality_format_string "480p" = height_capped "480" ∧
   get_quality_format_string "360p" = height_capped "360") ∧
  (get_quality_format_string "" = "best" ∧
   get_quality_format_string "4k" = "best" ∧
   get_quality_format_string "1080P" = "best").
Proof.
  split; [|split; [|split; [|split; [|split]]]].
  - intros q. exact (replace_char_without "p" q).
  - intros h Hh. rewrite selector_by_height, without_append, without_absent by done.
    change (Str.without "p" "p") with "". by rewrite append_nil_r.
  - intros q Hin. rewrite selector_by_height.
    by rewrite (proj2 (mem_In _ _) Hin).
  - intros q Hnin. rewrite selector_by_height.
    destruct (Str.mem (Str.without "p" q) heights) eqn:E; [|done].
    apply mem_In in E. contradiction.
  - repeat split; reflexivity.
  - repeat split; reflexivity.
Qed.

Lemma format_selector_drops_every_p_witness :
  In (Str.without "p" "p7p20") heights ∧
  get_quality_format_string "p7p20" = height_capped (Str.without "p" "p7p20").
Proof.
  assert (H : In (Str.without "p" "p7p20") heights) by (cbn; tauto).
  split; [exact H|].
  exact (proj1 (proj2 (proj2 format_selector_drops_every_p)) "p7p20" H).
Defined.

(** The label 1080, which is none of the four labels, is capped all the
    same, and a p inside the label is dropped too. *)
Lemma format_selector_bare_height_is_capped :
  ¬ In "1080" quality_labels ∧
  get_quality_format_string "1080" = height_capped "1080" ∧
  get_quality_format_string "1080" ≠ "best" ∧
  Str.replace "p" "" "10p80" = "1080".
Proof.
  split; [|split; [|split]].
  - cbn. intros H. repeat destruct H as [H|H]; try discriminate H. exact H.
  - reflexivity.
  - apply selector_capped_not_best.
  - reflexivity.
Qed.

(** ** Decimal numerals *)

Lemma read_format_int (n : Z) : read_int (format_int n) = Some n.
Proof.
  unfold read_int, format_int. rewrite NilZero.isi.
  - cbn. by rewrite DecimalZ.of_to.
  - destruct n; cbn; [discriminate| |discriminate].
    intros [= H]. by apply DecimalPos.Unsigned.to_uint_nonnil in H.
  - destruct n; cbn; [discriminate|discriminate|].
    intros [= H]. by apply DecimalPos.Unsigned.to_uint_nonnil in H.
Qed.

Lemma to_uint_normal (p : positive) : nzhead (Pos.to_uint p) = Pos.to_uint p.
Proof.
  pose proof (DecimalN.Unsigned.to_of (Pos.to_uint p)) as H.
  change (N.of_uint (Pos.to_uint p)) with (Pos.of_uint (Pos.to_uint p)) in H.
  rewrite DecimalPos.Unsigned.of_to in H. cbn in H.
  rewrite unorm_nzhead in H; [done|].
  intros Hnil. apply unorm_0 in Hnil. rewrite <- H in Hnil.
  by apply DecimalPos.Unsigned.to_uint_nonzero in Hnil.
Qed.

Lemma string_of_uint_head (d : uint) :
  d ≠ Nil → (∀ d', d ≠ D0 d') →
  ∃ c s, NilEmpty.string_of_uint d = String c s ∧ c ≠ "0"%char.
Proof.
  intros Hnil H0. destruct d; try done; cbn; try (eexists _, _; split; [done|discriminate]).
  by destruct (H0 d).
Qed.

(** A positive number is written without a leading zero. *)
Lemma format_int_no_leading_zero (n : Z) :
  0 < n → ∃ c s, format_int n = String c s ∧ c ≠ "0"%char.
Proof.
  intros Hn. destruct n as [|p|p]; try lia.
  unfold format_int. cbn [Z.to_int NilZero.string_of_int].
  assert (Hnn : Pos.to_uint p ≠ Nil) by apply DecimalPos.Unsigned.to_uint_nonnil.
  assert (Hd0 : ∀ d', Pos.to_uint p ≠ D0 d').
  { intros d' E. pose proof (to_uint_normal p) as H. rewrite E in H at 2.
    by apply nzhead_nonzero in H. }
  destruct (string_of_uint_head _ Hnn Hd0) as (c & s & E & Hc).
  exists c, s. split; [|done]. rewrite <- E. unfold NilZero.string_of_uint.
  by destruct (Pos.to_uint p).
Qed.

Lemma zero_padded_two_digits (s : Z) :
  0 ≤ s < 100 → format_int_zero_padded 2 s = two_digits s.
Proof.
  intros Hs. rewrite <- (Z2Nat.id s) by lia.
  assert (Hn : (Z.to_nat s < 100)%nat) by lia.
  generalize dependent (Z.to_nat s). clear. intros n Hn.
  do 100 (destruct n as [|n]; [reflexivity|]). lia.
Qed.

(** ** Exact binary64 arithmetic *)

Lemma digits_log2 (p : positive) : Zpos (digits2_pos p) = Z.log2 (Zpos p) + 1.
Proof.
  assert (H : ∀ q, digits2_pos q = Pos.size q) by (intros q; induction q; cbn; congruence).
  destruct p as [p|p|]; cbn [Z.log2]; rewrite ?H; cbn [Pos.size]; lia.
Qed.

Lemma iter_xO (m d : positive) : Zpos (Pos.iter xO m d) = Zpos m * 2 ^ Zpos d.
Proof.
  induction d as [|d IH] using Pos.peano_ind.
  - cbn. lia.
  - rewrite Pos.iter_succ, Pos2Z.inj_succ, Z.pow_succ_r by lia.
    rewrite Pos2Z.inj_xO, IH. lia.
Qed.

Lemma iter_pos_iter {A} (f : A → A) (n : positive) (x : A) :
  SpecFloat.iter_pos f n x = Pos.iter f x n.
Proof.
  revert x. induction n as [n IH|n IH|]; intros x; cbn; [|by rewrite !IH|done].
  rewrite !IH. by rewrite <- !Pos.iter_swap.
Qed.

Lemma shr_1_even (a : Z) :
  0 ≤ a → shr_1 (Build_shr_record (2 * a) false false) = Build_shr_record a false false.
Proof. intros Ha. destruct a as [|a|a]; [done|done|lia]. Qed.

Lemma shr_exact (n : positive) (a : Z) :
  0 ≤ a →
  SpecFloat.iter_pos shr_1 n (Build_shr_record (a * 2 ^ Zpos n) false false) =
    Build_shr_record a false false.
Proof.
  intros Ha. rewrite iter_pos_iter. revert a Ha.
  induction n as [|n IH] using Pos.peano_ind; intros a Ha.
  - cbn [Pos.iter]. replace (a * 2 ^ 1) with (2 * a) by lia. by apply shr_1_even.
  - rewrite Pos.iter_succ, Pos2Z.inj_succ, Z.pow_succ_r by lia.
    replace (a * (2 * 2 ^ Z.pos n)) with ((2 * a) * 2 ^ Z.pos n) by lia.
    rewrite IH by lia. by apply shr_1_even.
Qed.

Lemma Zdigits2_log2 (m : Z) : 0 < m → Zdigits2 m = Z.log2 m + 1.
Proof. destruct m as [|p|p]; try lia. intros _. apply digits_log2. Qed.

Lemma fexp_binary64 (e : Z) : fexp 53 1024 e = Z.max (e - 53) (-1074).
Proof. reflexivity. Qed.

(** Shifting right to the canonical exponent loses nothing when the bits
    that go are zero. *)
Lemma shr_fexp_exact (m ex : Z) :
  0 < m →
  let E := fexp 53 1024 (Zdigits2 m + ex) in
  (E ≤ ex ∨ ∃ a, m = a * 2 ^ (E - ex)) →
  ∃ a, shr_fexp 53 1024 m ex loc_Exact = (Build_shr_record a false false, Z.max E ex) ∧
       m = a * 2 ^ (Z.max E ex - ex) ∧ 0 < a.
Proof.
  intros Hm E HE. unfold shr_fexp. fold E. cbn [shr_record_of_loc].
  destruct (E - ex) as [|n|n] eqn:Hn.
  - exists m. cbn [shr]. rewrite Z.max_r by lia.
    replace (ex - ex) with 0 by lia. split; [done|]. lia.
  - destruct HE as [HE|[a Ha]]; [lia|].
    exists a. cbn [shr]. rewrite Z.max_l by lia.
    assert (Ha0 : 0 < a).
    { assert (0 < 2 ^ Zpos n) by (apply Z.pow_pos_nonneg; lia). nia. }
    rewrite Ha at 1. rewrite shr_exact by lia.
    split; [f_equal; lia|]. rewrite Hn. done.
  - exists m. cbn [shr]. rewrite Z.max_r by lia.
    replace (ex - ex) with 0 by lia. split; [done|]. lia.
Qed.

(** Rounding a number that fits the format returns it. *)
Lemma round_exact (p : positive) (ex : Z) :
  let E := fexp 53 1024 (Zpos (digits2_pos p) + ex) in
  (E ≤ ex ∨ ∃ a, Zpos p = a * 2 ^ (E - ex)) → Z.max E ex ≤ 971 →
  ∃ m', binary_round_aux 53 1024 false (Zpos p) ex loc_Exact =
          S754_finite false m' (Z.max E ex) ∧
        Zpos p = Zpos m' * 2 ^ (Z.max E ex - ex).
Proof.
  intros E HE Hmax. unfold binary_round_aux.
  destruct (shr_fexp_exact (Zpos p) ex ltac:(lia) HE) as (a & -> & Ha & Ha0).
  cbn [Zdigits2] in Ha. fold E in Ha.
  cbn [Zdigits2 shr_m loc_of_shr_record round_nearest_even]. fold E.
  assert (HE' : fexp 53 1024 (Zdigits2 a + Z.max E ex) = E).
  { rewrite Zdigits2_log2 by done. unfold E at 2.
    apply (f_equal (fexp 53 1024)).
    rewrite digits_log2, Ha. rewrite Z.log2_mul_pow2 by lia. lia. }
  destruct (shr_fexp_exact a (Z.max E ex) Ha0) as (a' & -> & Ha' & Ha0').
  { left. rewrite HE'. lia. }
  rewrite HE' in *. rewrite Z.max_r in * by lia.
  replace (Z.max E ex - Z.max E ex) with 0 in Ha' by lia.
  rewrite Z.mul_1_r in Ha'. subst a'. cbn [shr_m].
  destruct a as [|a|a]; try lia.
  exists a. rewrite (proj2 (Z.leb_le _ _)) by (cbn; lia). done.
Qed.

Lemma pow2_pos (n : Z) : 0 ≤ n → 0 < 2 ^ n.
Proof. intros. apply Z.pow_pos_nonneg; lia. Qed.

Lemma pow2_split (a b : Z) : 0 ≤ a → 0 ≤ b → 2 ^ (a + b) = 2 ^ a * 2 ^ b.
Proof. intros. by apply Z.pow_add_r. Qed.

(** [N * 2^ez] is kept by [binary_normalize] when it has at most 53
    significant bits: it is a multiple of [2^t] below [2^(t+53)], in units
    of 2^-1074. *)
Lemma normalize_exact (N ez t : Z) :
  0 ≤ N → -1074 ≤ ez → 0 ≤ t → t ≤ 2045 →
  (2 ^ t | N * 2 ^ (ez + 1074)) → N * 2 ^ (ez + 1074) < 2 ^ (t + 53) →
  holds (binary_normalize 53 1024 N ez false) (N * 2 ^ (ez + 1074)).
Proof.
  intros HN Hez Ht Ht' Hdiv Hlt.
  destruct N as [|p|p]; [cbn; lia| |lia]. clear HN.
  cbn [binary_normalize]. unfold binary_round.
  set (E := fexp 53 1024 (Zpos (digits2_pos p) + ez)).
  pose proof (pow2_pos (ez + 1074) ltac:(lia)) as Hpow.
  assert (HL : Z.log2 (Zpos p) + ez + 1074 < t + 53).
  { apply Z.log2_lt_pow2 in Hlt; [|lia].
    rewrite Z.log2_mul_pow2 in Hlt by lia. lia. }
  assert (HE : E = Z.max (Z.log2 (Zpos p) + 1 + ez - 53) (-1074)).
  { unfold E. rewrite fexp_binary64, digits_log2. done. }
  unfold shl_align. destruct (E - ez) as [|d|d] eqn:Hd.
  - pose proof (round_exact p ez) as Hr. cbv zeta in Hr. fold E in Hr.
    destruct Hr as (m' & -> & Hm'); [left; lia|lia|].
    rewrite Z.max_l in Hm' |- * by lia.
    replace (E - ez) with 0 in Hm' by lia. rewrite Z.pow_0_r, Z.mul_1_r in Hm'.
    cbn [holds]. split; [lia|]. replace E with ez by lia. by rewrite Hm'.
  - pose proof (round_exact p ez) as Hr. cbv zeta in Hr. fold E in Hr.
    destruct Hr as (m' & -> & Hm'); [|lia|].
    + right. destruct Hdiv as [c Hc].
      assert (Hsplit : 2 ^ t = 2 ^ (t - (E + 1074)) * (2 ^ (E - ez) * 2 ^ (ez + 1074))).
      { rewrite <- !pow2_split by lia. f_equal. lia. }
      exists (c * 2 ^ (t - (E + 1074))).
      rewrite Hsplit in Hc. apply (Z.mul_cancel_r _ _ (2 ^ (ez + 1074))); [lia|].
      rewrite Hc. ring.
    + rewrite Z.max_l in Hm' |- * by lia. cbn [holds]. split; [lia|].
      rewrite Hm'. replace (E + 1074) with ((E - ez) + (ez + 1074)) by lia.
      rewrite (pow2_split (E - ez) (ez + 1074)) by lia. ring.
  - assert (Hmz : Zpos (Pos.iter xO p d) = Zpos p * 2 ^ Zpos d) by apply iter_xO.
    assert (HE2 : fexp 53 1024 (Zpos (digits2_pos (Pos.iter xO p d)) + E) = E).
    { unfold E at 2. apply (f_equal (fexp 53 1024)).
      rewrite !digits_log2, Hmz, Z.log2_mul_pow2 by lia. lia. }
    pose proof (round_exact (Pos.iter xO p d) E) as Hr. cbv zeta in Hr.
    rewrite HE2 in Hr.
    destruct Hr as (m' & -> & Hm'); [left; lia|lia|].
    rewrite Z.max_l in Hm' |- * by lia.
    replace (E - E) with 0 in Hm' by lia. rewrite Z.pow_0_r, Z.mul_1_r in Hm'.
    cbn [holds]. split; [lia|]. rewrite <- Hm', Hmz.
    replace (ez + 1074) with (Zpos d + (E + 1074)) by lia.
    rewrite (pow2_split (Zpos d) (E + 1074)) by lia. ring.
Qed.

(** The same for [binary_round_aux] alone, which does not shift left. *)
Lemma round_holds (N ez t : Z) :
  0 < N → -1074 ≤ ez ≤ 971 → 0 ≤ t → t ≤ 2045 →
  (2 ^ t | N * 2 ^ (ez + 1074)) → N * 2 ^ (ez + 1074) < 2 ^ (t + 53) →
  holds (binary_round_aux 53 1024 false N ez loc_Exact) (N * 2 ^ (ez + 1074)).
Proof.
  intros HN Hez Ht Ht' Hdiv Hlt.
  destruct N as [|p|p]; try lia. clear HN.
  set (E := fexp 53 1024 (Zpos (digits2_pos p) + ez)).
  pose proof (pow2_pos (ez + 1074) ltac:(lia)) as Hpow.
  assert (HL : Z.log2 (Zpos p) + ez + 1074 < t + 53).
  { apply Z.log2_lt_pow2 in Hlt; [|lia].
    rewrite Z.log2_mul_pow2 in Hlt by lia. lia. }
  assert (HE : E = Z.max (Z.log2 (Zpos p) + 1 + ez - 53) (-1074)).
  { unfold E. rewrite fexp_binary64, digits_log2. done. }
  pose proof (round_exact p ez) as Hr. cbv zeta in Hr. fold E in Hr.
  destruct Hr as (m' & -> & Hm'); [|lia|].
  - destruct (Z_le_gt_dec E ez) as [Hle|Hgt]; [by left|right].
    destruct Hdiv as [c Hc].
    assert (Hsplit : 2 ^ t = 2 ^ (t - (E + 1074)) * (2 ^ (E - ez) * 2 ^ (ez + 1074))).
    { rewrite <- !pow2_split by lia. f_equal. lia. }
    exists (c * 2 ^ (t - (E + 1074))).
    rewrite Hsplit in Hc. apply (Z.mul_cancel_r _ _ (2 ^ (ez + 1074))); [lia|].
    rewrite Hc. ring.
  - cbn [holds]. split; [lia|]. rewrite Hm'.
    replace (Z.max E ez + 1074) with ((Z.max E ez - ez) + (ez + 1074)) by lia.
    rewrite (pow2_split (Z.max E ez - ez) (ez + 1074)) by lia. ring.
Qed.

Lemma holds_zero (f : spec_float) : holds f 0 → Float.nonzero f = false.
Proof.
  destruct f as [s|s| |[] m e]; cbn; try done.
  intros [He H]. pose proof (pow2_pos (e + 1074) ltac:(lia)). lia.
Qed.

Lemma shl_align_value (mx : positive) (ex ez : Z) :
  ez ≤ ex → Zpos (fst (shl_align mx ex ez)) = Zpos mx * 2 ^ (ex - ez).
Proof.
  intros H. unfold shl_align. destruct (ez - ex) as [|d|d] eqn:Hd; cbn [fst].
  - replace (ex - ez) with 0 by lia. lia.
  - lia.
  - rewrite iter_xO. f_equal. f_equal. lia.
Qed.

(** Subtraction is exact when the difference fits. *)
Lemma sub_holds (a b : spec_float) (Sa Sb t : Z) :
  holds a Sa → holds b Sb → Sb ≤ Sa → 0 ≤ t → t ≤ 2045 →
  (2 ^ t | Sa - Sb) → Sa - Sb < 2 ^ (t + 53) →
  holds (Float.sub a b) (Sa - Sb).
Proof.
  intros Ha Hb Hle Ht Ht' Hdiv Hlt.
  destruct b as [sb|sb| |[] mb eb]; cbn in Hb; try done.
  - subst Sb. rewrite Z.sub_0_r. destruct a as [sa|sa| |[] ma ea]; cbn in Ha; try done.
    subst Sa. by destruct sa, sb.
  - destruct Hb as [Heb Hb].
    destruct a as [sa|sa| |[] ma ea]; cbn in Ha; try done.
    { pose proof (pow2_pos (eb + 1074) ltac:(lia)). lia. }
    destruct Ha as [Hea Ha].
    unfold Float.sub, SFsub. cbn [cond_Zopp].
    set (ez := Z.min ea eb).
    rewrite !shl_align_value by lia.
    assert (Hval : (Zpos ma * 2 ^ (ea - ez) - Zpos mb * 2 ^ (eb - ez)) * 2 ^ (ez + 1074) =
                   Sa - Sb).
    { rewrite Z.mul_sub_distr_r, <- !Z.mul_assoc, <- !pow2_split by lia.
      replace (ea - ez + (ez + 1074)) with (ea + 1074) by lia.
      replace (eb - ez + (ez + 1074)) with (eb + 1074) by lia. lia. }
    rewrite <- Hval. apply (normalize_exact _ ez t); try lia.
    + pose proof (pow2_pos (ez + 1074) ltac:(lia)). nia.
    + by rewrite Hval.
Qed.

Lemma int_to_float_60 : int_to_float 60 = Ok sixty.
Proof. reflexivity. Qed.

Lemma sixty_value : 8444249301319680 = 60 * 2 ^ 47.
Proof. reflexivity. Qed.

Lemma bounded_facts (m : positive) (e : Z) :
  bounded 53 1024 m e = true → -1074 ≤ e ≤ 971 ∧ Zpos m < 2 ^ 53.
Proof.
  unfold bounded, canonical_mantissa. rewrite fexp_binary64, digits_log2.
  intros [H1 H2]%andb_prop. apply Z.eqb_eq in H1. apply Z.leb_le in H2.
  cbn in H2. split; [lia|]. apply Z.log2_lt_pow2; lia.
Qed.

(** [fmod] by 60 is exact. *)
Lemma fmod_holds (m : positive) (e : Z) :
  -1074 ≤ e → Zpos m < 2 ^ 53 →
  holds (Float.fmod (S754_finite false m e) sixty)
        ((Zpos m * 2 ^ (e + 1074)) mod (60 * 2 ^ 1074)).
Proof.
  intros He Hm. unfold Float.fmod, sixty. cbn [cond_Zopp].
  set (e' := Z.min e (-47)).
  set (X := Zpos m * 2 ^ (e - e')). set (Y := 8444249301319680 * 2 ^ (-47 - e')).
  pose proof (pow2_pos (e' + 1074) ltac:(lia)) as Hpow.
  pose proof (pow2_pos (e - e') ltac:(lia)) as Hpx.
  pose proof (pow2_pos (-47 - e') ltac:(lia)) as Hpy.
  assert (HX : X * 2 ^ (e' + 1074) = Zpos m * 2 ^ (e + 1074)).
  { unfold X. rewrite <- Z.mul_assoc, <- pow2_split by lia. f_equal. f_equal. lia. }
  assert (HY : Y * 2 ^ (e' + 1074) = 60 * 2 ^ 1074).
  { unfold Y. rewrite sixty_value, <- !Z.mul_assoc, <- !pow2_split by lia.
    f_equal. f_equal. lia. }
  assert (HY0 : 0 < Y) by (unfold Y; lia).
  rewrite <- HX, <- HY, Z.mul_mod_distr_r by lia.
  pose proof (Z.mod_pos_bound X Y HY0) as Hmod.
  apply (normalize_exact _ e' (e' + 1074)); try lia.
  - by apply Z.divide_factor_r.
  - rewrite (Z.add_comm (e' + 1074)), (pow2_split 53 (e' + 1074)) by lia.
    apply Z.mul_lt_mono_pos_r; [done|].
    destruct (Z.min_spec e (-47)) as [[? E]|[? E]]; fold e' in E.
    + assert (X = Zpos m) by (unfold X; rewrite E, Z.sub_diag; lia).
      assert (X mod Y ≤ X) by (apply Z.mod_le; lia). lia.
    + assert (Y = 8444249301319680) by (unfold Y; rewrite E; reflexivity).
      assert (8444249301319680 < 2 ^ 53) by reflexivity. lia.
Qed.

(** Dividing a multiple of 60 by 60 is exact. *)
Lemma div_holds (a : spec_float) (k : Z) :
  holds a (60 * k * 2 ^ 1074) → k < 2 ^ 53 →
  holds (Float.div a sixty) (k * 2 ^ 1074).
Proof.
  intros Ha Hk.
  destruct a as [sa|sa| |[] m1 e1]; cbn in Ha; try done.
  { assert (k = 0) by lia. subst k. by destruct sa. }
  destruct Ha as [He1 Ha].
  pose proof (pow2_pos (e1 + 1074) ltac:(lia)) as Hp1.
  assert (Hk0 : 0 < k) by nia.
  unfold Float.div, SFdiv, sixty, SFdiv_core_binary. cbn [xorb Zdigits2].
  change (Zpos (digits2_pos 8444249301319680)) with 53.
  set (e' := Z.min _ _). set (s := e1 - -47 - e').
  assert (Hlog : Z.log2 (Zpos m1) + e1 + 1074 < 1133).
  { pose proof (Z.log2_mul_pow2 (Zpos m1) (e1 + 1074) ltac:(lia) ltac:(lia)) as Hl.
    assert (Z.log2 (Zpos m1 * 2 ^ (e1 + 1074)) < 1133); [|lia].
    apply Z.log2_lt_pow2; [lia|]. rewrite Ha.
    change (2 ^ 1133) with (64 * 2 ^ 53 * 2 ^ 1074).
    apply Z.mul_lt_mono_pos_r; [done|]. lia. }
  assert (He' : -1074 ≤ e' ≤ 0 ∧ 0 ≤ s).
  { unfold s, e'. rewrite fexp_binary64, digits_log2. lia. }
  set (m' := match s with Zpos _ => Z.shiftl (Zpos m1) s | 0 => Zpos m1 | Zneg _ => 0 end).
  assert (Hm' : m' = 8444249301319680 * (k * 2 ^ (- e'))).
  { assert (Hms : m' = Zpos m1 * 2 ^ s).
    { unfold m'. destruct s as [|ps|ps] eqn:Es; [lia| |lia].
      by rewrite Z.shiftl_mul_pow2. }
    pose proof (pow2_pos (e' + 1074) ltac:(lia)) as Hpe.
    apply (Z.mul_cancel_r _ _ (2 ^ (e' + 1074))); [lia|].
    rewrite Hms, <- !Z.mul_assoc, <- !pow2_split by lia.
    replace (s + (e' + 1074)) with ((e1 + 1074) + 47) by (unfold s; lia).
    replace (- e' + (e' + 1074)) with 1074 by lia.
    rewrite (pow2_split (e1 + 1074) 47), Z.mul_assoc, Ha, sixty_value by lia. ring. }
  assert (Hq : Z.div_eucl m' 8444249301319680 = (k * 2 ^ (- e'), 0)).
  { pose proof (Z.div_eucl_eq m' 8444249301319680 ltac:(lia)) as Heq.
    pose proof (Z.mod_pos_bound m' 8444249301319680 ltac:(lia)) as Hb.
    unfold Z.modulo in Hb. destruct (Z.div_eucl m' 8444249301319680) as [q r].
    assert (r = 0 ∧ q = k * 2 ^ (- e')) as [-> ->]; [|done].
    rewrite Hm' in Heq. nia. }
  rewrite Hq. change (new_location 8444249301319680 0) with loc_Exact.
  pose proof (pow2_pos (- e') ltac:(lia)) as Hpn.
  replace (k * 2 ^ 1074) with (k * 2 ^ (- e') * 2 ^ (e' + 1074)).
  2:{ rewrite <- Z.mul_assoc, <- pow2_split by lia. f_equal. f_equal. lia. }
  apply (round_holds _ e' 1074); try lia.
  - rewrite <- Z.mul_assoc, <- pow2_split by lia.
    replace (- e' + (e' + 1074)) with 1074 by lia. by apply Z.divide_factor_r.
  - rewrite <- Z.mul_assoc, <- pow2_split by lia.
    replace (- e' + (e' + 1074)) with 1074 by lia.
    rewrite (Z.add_comm 1074), (pow2_split 53 1074) by lia.
    apply Z.mul_lt_mono_pos_r; [done|lia].
Qed.

(** [int(f)] is the integer part of the value. *)
Lemma to_Z_holds (f : spec_float) (S : Z) :
  holds f S → Float.to_Z f = Ok (S / 2 ^ 1074).
Proof.
  destruct f as [s|s| |[] m e]; cbn [holds]; try done.
  { by intros ->. }
  intros [He <-]. cbn [Float.to_Z cond_Zopp]. f_equal.
  destruct (0 <=? e) eqn:E.
  - apply Z.leb_le in E. rewrite (pow2_split e 1074), Z.mul_assoc by lia.
    pose proof (pow2_pos 1074 ltac:(lia)). rewrite Z.div_mul; lia.
  - apply Z.leb_gt in E. rewrite Z.quot_div_nonneg by (try apply pow2_pos; lia).
    replace (2 ^ 1074) with (2 ^ (- e) * 2 ^ (e + 1074)).
    2:{ rewrite <- pow2_split by lia. f_equal. lia. }
    pose proof (pow2_pos (- e) ltac:(lia)). pose proof (pow2_pos (e + 1074) ltac:(lia)).
    rewrite Z.div_mul_cancel_r; lia.
Qed.

(** [floor] of a float whose value is the integer [k] is that float. *)
Lemma floor_holds (f : spec_float) (k : Z) :
  k < 2 ^ 53 → holds f (k * 2 ^ 1074) → holds (Float.floor f) (k * 2 ^ 1074).
Proof.
  intros Hk Hf. destruct f as [s|s| |[] m e]; cbn [holds] in Hf; try done.
  destruct Hf as [He Hf]. cbn [Float.floor cond_Zopp].
  destruct (0 <=? e) eqn:E; [by cbn|].
  apply Z.leb_gt in E.
  pose proof (pow2_pos (- e) ltac:(lia)). pose proof (pow2_pos (e + 1074) ltac:(lia)).
  assert (Hm : Zpos m = k * 2 ^ (- e)).
  { apply (Z.mul_cancel_r _ _ (2 ^ (e + 1074))); [lia|].
    rewrite Hf, <- Z.mul_assoc, <- pow2_split by lia. f_equal. f_equal. lia. }
  rewrite Hm, Z.div_mul by lia.
  replace (k * 2 ^ 1074) with (k * 2 ^ (0 + 1074)) by done.
  apply (normalize_exact _ 0 1074); try lia.
  by apply Z.divide_factor_r.
Qed.

Lemma ltb_zero_holds (f : spec_float) (S : Z) : holds f S → Float.ltb f Float.zero = false.
Proof. by destruct f as [s|s| |[] m e]. Qed.

Lemma half_not_below_zero (f : spec_float) : holds f 0 → Float.ltb Float.half f = false.
Proof.
  intros Hf. pose proof (holds_zero _ Hf). by destruct f as [s|s| |[] m e].
Qed.

Section DivMod60.

Variable m : positive.
Variable e : Z.
Hypothesis Hbounded : bounded 53 1024 m e = true.
Hypothesis Hsmall : Zpos m * 2 ^ (e + 1074) < 2 ^ 1127.

Abbreviation x := (S754_finite false m e).
Abbreviation Sx := (Zpos m * 2 ^ (e + 1074)).
Abbreviation k := (Sx / (60 * 2 ^ 1074)).
Abbreviation R := (Sx mod (60 * 2 ^ 1074)).

Lemma quotient_facts : Sx = 60 * k * 2 ^ 1074 + R ∧ 0 ≤ R < 60 * 2 ^ 1074 ∧ 0 ≤ k < 2 ^ 53.
Proof.
  pose proof (bounded_facts _ _ Hbounded) as [He Hm].
  pose proof (pow2_pos (e + 1074) ltac:(lia)) as Hp.
  pose proof (pow2_pos 1074 ltac:(lia)) as HU.
  assert (HS : 0 < Sx) by lia.
  pose proof (Z.div_mod Sx (60 * 2 ^ 1074) ltac:(lia)) as Hdm.
  pose proof (Z.mod_pos_bound Sx (60 * 2 ^ 1074) ltac:(lia)) as Hb.
  split; [lia|]. split; [done|].
  assert (0 ≤ k) by (apply Z.div_pos; lia). split; [done|].
  assert (60 * k * 2 ^ 1074 < 2 ^ 53 * 2 ^ 1074); [|nia].
  change (2 ^ 53 * 2 ^ 1074) with (2 ^ 1127). lia.
Qed.

Lemma mod_holds_60 : holds (Float.fmod x sixty) R.
Proof.
  pose proof (bounded_facts _ _ Hbounded) as [He Hm].
  apply fmod_holds; lia.
Qed.

Lemma rem_holds_60 : holds (Float.rem x sixty) R.
Proof.
  unfold Float.rem. pose proof mod_holds_60 as H.
  destruct (Float.nonzero (Float.fmod x sixty)) eqn:E.
  - rewrite (ltb_zero_holds _ _ H). done.
  - by destruct (Float.fmod x sixty) as [s|s| |s m' e'].
Qed.

Lemma floordiv_holds_60 : holds (fst (Float.div_mod x sixty)) (k * 2 ^ 1074).
Proof.
  pose proof (bounded_facts _ _ Hbounded) as [He Hm].
  pose proof quotient_facts as (HS & HR & Hk).
  pose proof mod_holds_60 as Hmod.
  pose proof (pow2_pos 1074 ltac:(lia)) as HU.
  assert (Hx : holds x Sx) by (cbn; split; [lia|done]).
  assert (Hsub : holds (Float.sub x (Float.fmod x sixty)) (60 * k * 2 ^ 1074)).
  { replace (60 * k * 2 ^ 1074) with (Sx - R) by lia.
    apply (sub_holds _ _ _ _ 1074); try done; try lia.
    replace (Sx - R) with (60 * k * 2 ^ 1074) by lia. by apply Z.divide_factor_r. }
  pose proof (div_holds _ k Hsub (proj2 Hk)) as Hdiv.
  unfold Float.div_mod.
  set (mod0 := Float.fmod x sixty) in *.
  set (div0 := Float.div (Float.sub x mod0) sixty) in *.
  assert (Hpair : (if Float.nonzero mod0
                   then if negb (Bool.eqb (Float.ltb sixty Float.zero) (Float.ltb mod0 Float.zero))
                        then (Float.add mod0 sixty, Float.sub div0 Float.one)
                        else (mod0, div0)
                   else (S754_zero (Float.sign_bit sixty), div0)) =
                  (if Float.nonzero mod0 then mod0 else S754_zero false, div0)).
  { rewrite (ltb_zero_holds _ _ Hmod). by destruct (Float.nonzero mod0). }
  rewrite Hpair. cbn [fst].
  destruct (Float.nonzero div0) eqn:E.
  - pose proof (floor_holds div0 k (proj2 Hk) Hdiv) as Hfl.
    assert (Hdiff : holds (Float.sub div0 (Float.floor div0)) 0).
    { replace 0 with (k * 2 ^ 1074 - k * 2 ^ 1074) by lia.
      apply (sub_holds _ _ _ _ 0); try done; try lia.
      rewrite Z.sub_diag. apply Z.divide_0_r. }
    by rewrite (half_not_below_zero _ Hdiff).
  - by destruct div0 as [s|s| |s m' e'].
Qed.

End DivMod60.

(** A well-formed float below 2^53: the quotient and the remainder by 60
    are exact, and so are their integer parts. *)
Lemma float_minutes_seconds (f : spec_float) :
  small_duration f = true →
  (floordiv (NFloat f) 60 ≫= to_int) = Ok (exact_floor_div f 60) ∧
  (modulo (NFloat f) 60 ≫= to_int) = Ok (exact_floor_mod f 60) ∧
  0 ≤ exact_floor_mod f 60 < 60.
Proof.
  destruct f as [s|s| |[] m e]; cbn [small_duration]; try done.
  { intros _. by destruct s. }
  intros [Hb Hs%Z.ltb_lt]%andb_prop.
  pose proof (quotient_facts m e Hb Hs) as (HS & HR & Hk).
  pose proof (pow2_pos 1074 ltac:(lia)) as HU.
  unfold floordiv, modulo. rewrite int_to_float_60. cbn [Float.nonzero sixty].
  fold sixty. cbn [mbind result_bind to_int].
  rewrite (to_Z_holds _ _ (floordiv_holds_60 m e Hb Hs)).
  rewrite (to_Z_holds _ _ (rem_holds_60 m e Hb)).
  unfold exact_floor_div, exact_floor_mod. cbn [float_units cond_Zopp].
  rewrite Z.div_mul by lia. split; [done|]. split; [done|].
  split; [apply Z.div_pos; lia|]. apply Z.div_lt_upper_bound; lia.
Qed.

(** ** C6: durations *)

Section DurationFacts.

Variable repr_str : string → string.
Variable repr_float : spec_float → string.

Lemma format_duration_int (D : Z) :
  format_duration repr_str repr_float (PyInt D) =
    Ok (format_int (D / 60) +:+ ":" +:+ format_int_zero_padded 2 (D mod 60)).
Proof. reflexivity. Qed.

Lemma format_duration_non_number (x : pyval) :
  as_number x = None →
  format_duration repr_str repr_float x = Ok (py_str repr_str repr_float x).
Proof. unfold format_duration. by intros ->. Qed.

End DurationFacts.

(** C6 (as amended): for every non-negative integer duration D, and for
    every well-formed float duration D with 0 <= D < 2^53,
    format_duration(D) is the decimal numeral of floor(D/60), then a
    colon, then the two digits of floor(D mod 60); the numeral of an
    integer reads back as that integer and has no leading zero;
    format_duration(330) = "5:30", format_duration(59) = "0:59",
    format_duration(3600) = "60:00". *)
Theorem format_duration_exact (repr_str : string → string) (repr_float : spec_float → string) :
  (∀ D, 0 ≤ D →
     format_duration repr_str repr_float (PyInt D) =
       Ok (format_int (D / 60) +:+ ":" +:+ two_digits (D mod 60))) ∧
  (∀ f, small_duration f = true →
     format_duration repr_str repr_float (PyFloat f) =
       Ok (format_int (exact_floor_div f 60) +:+ ":" +:+ two_digits (exact_floor_mod f 60))) ∧
  (∀ n, read_int (format_int n) = Some n) ∧
  (∀ n, 0 ≤ n →
     format_int n = "0" ∨ ∃ c s, format_int n = String c s ∧ c ≠ "0"%char) ∧
  format_duration repr_str repr_float (PyInt 330) = Ok "5:30" ∧
  format_duration repr_str repr_float (PyInt 59) = Ok "0:59" ∧
  format_duration repr_str repr_float (PyInt 3600) = Ok "60:00".
Proof.
  split; [|split; [|split; [|split; [|by repeat split]]]].
  - intros D HD.
    rewrite format_duration_int, zero_padded_two_digits; [done|].
    pose proof (Z.mod_pos_bound D 60). lia.
  - intros f Hf.
    destruct (float_minutes_seconds f Hf) as (Hmin & Hsec & Hrange).
    unfold format_duration. cbn [as_number]. rewrite Hmin. cbn [mbind result_bind].
    rewrite Hsec. cbn [mbind result_bind mret result_ret].
    rewrite zero_padded_two_digits; [done|lia].
  - apply read_format_int.
  - intros n Hn. assert (H : n = 0 ∨ 0 < n) by lia.
    destruct H as [->|H]; [by left|right].
    by apply format_int_no_leading_zero.
Qed.

Lemma format_duration_exact_witness :
  format_duration Sample.repr_str Sample.repr_float (PyInt 754) = Ok "12:34" ∧
  format_duration Sample.repr_str Sample.repr_float (PyFloat Sample.seconds_754_5) =
    Ok "12:34".
Proof.
  pose proof (format_duration_exact Sample.repr_str Sample.repr_float)
    as (Hint & Hfloat & _).
  split.
  - assert (H : 0 ≤ 754) by lia. exact (Hint 754 H).
  - assert (H : small_duration Sample.seconds_754_5 = true) by (vm_compute; reflexivity).
    rewrite (Hfloat Sample.seconds_754_5 H). vm_compute. reflexivity.
Defined.

(** A float duration can be infinite, and then the function raises; and
    for a large float the minutes are not the floor of D/60. *)
Lemma format_duration_infinite_raises :
  SFleb Float.zero (S754_infinity false) = true ∧
  format_duration Sample.repr_str Sample.repr_float (PyFloat (S754_infinity false)) =
    Raise (Exn "ValueError" "cannot convert float NaN to integer") ∧
  format_duration Sample.repr_str Sample.repr_float (PyFloat (Float.of_Z (2 ^ 70))) =
    Ok "19676527011956854784:04" ∧
  format_int (2 ^ 70 / 60) = "19676527011956855057".
Proof. repeat split; vm_compute; reflexivity. Qed.

(** ** The Option Builder: C7, C8, C9 *)

Lemma contents_insert (h : gmap nat (gmap string pyval)) (out : list string)
    (l : nat) (d : gmap string pyval) :
  contents (World (<[l := d]> h) out) l = d.
Proof. unfold contents. cbn. by rewrite lookup_insert_eq. Qed.

(** One call: a new dictionary at a fresh address, nothing else touched. *)
Lemma get_ydl_opts_run (download : bool) (output_template : pyval) (w : world) :
  get_ydl_opts download output_template w =
    (Ok (fresh (dom (heap w))),
     World (<[fresh (dom (heap w)) := built_options download output_template]> (heap w))
           (stdout w)).
Proof.
  unfold get_ydl_opts, mbind, M_bind, new_dict.
  destruct download; cbn -[fresh].
  - unfold dict_update. cbn -[fresh].
    rewrite contents_insert. cbn -[fresh]. by rewrite insert_insert_eq.
  - done.
Qed.

Lemma fresh_address_unused (w : world) : heap w !! fresh (dom (heap w)) = None.
Proof. apply not_elem_of_dom, is_fresh. Qed.

Lemma info_options_lookup (k : string) :
  info_options !! k =
    if decide (k = "no_warnings") then Some (PyBool true)
    else if decide (k = "quiet") then Some (PyBool true) else None.
Proof.
  unfold info_options. rewrite !lookup_insert, lookup_empty.
  repeat case_decide; congruence.
Qed.

Lemma download_options_lookup (t : pyval) (k : string) :
  download_options t !! k =
    if decide (k = "merge_output_format") then Some (PyStr "mp4")
    else if decide (k = "outtmpl") then Some t
    else if decide (k = "format")
         then Some (PyStr "bestvideo[height<=1080]+bestaudio/best[height<=1080]")
    else if decide (k = "quiet") then Some (PyBool false)
    else if decide (k = "no_warnings") then Some (PyBool true) else None.
Proof.
  unfold download_options. rewrite lookup_union, !lookup_insert, lookup_empty.
  rewrite info_options_lookup.
  repeat case_decide; subst; try congruence; try done.
Qed.

(** C7: in info mode the dictionary [get_ydl_opts] returns has quiet and
    no_warnings set to True and no other key (so no format, outtmpl or
    merge_output_format); in download mode it has quiet False, no_warnings
    True, the default format expression, outtmpl equal to the given
    template, merge_output_format "mp4", and no other key; when the caller
    then assigns the format key, as [download_video] does, only that
    entry changes. *)
Theorem get_ydl_opts_fields (output_template : pyval) (w : world) :
  (∃ opts w',
     get_ydl_opts false output_template w = (Ok opts, w') ∧
     contents w' opts !! "quiet" = Some (PyBool true) ∧
     contents w' opts !! "no_warnings" = Some (PyBool true) ∧
     contents w' opts !! "format" = None ∧
     contents w' opts !! "outtmpl" = None ∧
     contents w' opts !! "merge_output_format" = None ∧
     dom (contents w' opts) = {["quiet"; "no_warnings"]}) ∧
  (∃ opts w',
     get_ydl_opts true output_template w = (Ok opts, w') ∧
     contents w' opts !! "quiet" = Some (PyBool false) ∧
     contents w' opts !! "no_warnings" = Some (PyBool true) ∧
     contents w' opts !! "format" =
       Some (PyStr "bestvideo[height<=1080]+bestaudio/best[height<=1080]") ∧
     contents w' opts !! "outtmpl" = Some output_template ∧
     contents w' opts !! "merge_output_format" = Some (PyStr "mp4") ∧
     dom (contents w' opts) =
       {["quiet"; "no_warnings"; "format"; "outtmpl"; "merge_output_format"]}) ∧
  (∀ selected, ∃ o,
     outcome (opts ← get_ydl_opts true output_template;
              dict_setitem opts "format" selected;;
              dict_load opts) w = Ok o ∧
     o !! "format" = Some selected ∧
     ∀ key, key ≠ "format" → o !! key = download_options output_template !! key).
Proof.
  split; [|split].
  - eexists _, _. split; [apply get_ydl_opts_run|].
    rewrite contents_insert; cbn [built_options].
    rewrite !info_options_lookup. by repeat split_and.
  - eexists _, _. split; [apply get_ydl_opts_run|].
    rewrite contents_insert; cbn [built_options].
    rewrite !download_options_lookup. by repeat split_and.
  - intros selected. eexists. split.
    + unfold outcome, mbind at 1, M_bind at 1. rewrite get_ydl_opts_run.
      unfold mbind, M_bind, dict_setitem, dict_load. rewrite !contents_insert.
      cbn [heap stdout fst built_options]. reflexivity.
    + split; [apply lookup_insert_eq|].
      intros key Hkey. by rewrite lookup_insert_ne.
Qed.

Lemma get_ydl_opts_fields_witness :
  ∃ o,
    outcome (opts ← get_ydl_opts true (PyStr "downloads/%(title)s_1700000000.%(ext)s");
             dict_setitem opts "format" (PyStr "best");;
             dict_load opts) Sample.empty_world = Ok o ∧
    o !! "format" = Some (PyStr "best") ∧
    o !! "outtmpl" = Some (PyStr "downloads/%(title)s_1700000000.%(ext)s").
Proof.
  destruct (proj2 (proj2 (get_ydl_opts_fields
                            (PyStr "downloads/%(title)s_1700000000.%(ext)s")
                            Sample.empty_world)) (PyStr "best"))
    as (o & Ho & Hformat & Hrest).
  exists o. split; [exact Ho|]. split; [exact Hformat|].
  rewrite (Hrest "outtmpl") by discriminate.
  by rewrite download_options_lookup.
Defined.

(** C8 (as amended): the Option Builder never fails: for every mode flag
    and every template, present or missing, it returns a dictionary; in
    download mode without a template the dictionary's outtmpl is None. *)
Theorem get_ydl_opts_never_fails (download : bool) (output_template : pyval) (w : world) :
  (∃ opts, outcome (get_ydl_opts download output_template) w = Ok opts) ∧
  ¬ raises (outcome (get_ydl_opts download output_template) w) ∧
  (∃ opts w',
     get_ydl_opts true PyNone w = (Ok opts, w') ∧
     contents w' opts !! "outtmpl" = Some PyNone).
Proof.
  unfold outcome. rewrite get_ydl_opts_run. cbn [fst raises].
  split; [by eexists|]. split; [tauto|].
  eexists _, _. split; [apply get_ydl_opts_run|].
  rewrite contents_insert. cbn [built_options]. by rewrite download_options_lookup.
Qed.

(** Download mode without an output template does not fail. *)
Lemma get_ydl_opts_accepts_missing_template :
  ¬ (raises (outcome (get_ydl_opts true PyNone) Sample.empty_world) ↔
     (true = true ∧ PyNone = PyNone)) ∧
  outcome (get_ydl_opts true PyNone) Sample.empty_world = Ok 0%nat.
Proof.
  split; [|reflexivity].
  intros [_ H]. exact (H (conj eq_refl eq_refl)).
Qed.

(** C9: two calls of the Option Builder with the same mode flag and the
    same template return dictionaries with identical contents, whatever
    the state of the program at either call; a call creates its dictionary
    at an unused address, changes no existing dictionary and prints
    nothing, so a dictionary returned earlier and modified by its caller
    does not show in a later result. *)
Theorem get_ydl_opts_deterministic (download : bool) (output_template : pyval)
    (w1 w2 : world) (key : string) (v : pyval) :
  (∃ a b w1' w2',
     get_ydl_opts download output_template w1 = (Ok a, w1') ∧
     get_ydl_opts download output_template w2 = (Ok b, w2') ∧
     contents w1' a = contents w2' b ∧
     heap w1 !! a = None ∧
     (∀ l, l ≠ a → heap w1' !! l = heap w1 !! l) ∧
     stdout w1' = stdout w1) ∧
  outcome (first ← get_ydl_opts download output_template;
           dict_setitem first key v;;
           second ← get_ydl_opts download output_template;
           o1 ← dict_load first;
           o2 ← dict_load second;
           mret (o1, o2)) w1 =
    Ok (<[key := v]> (built_options download output_template),
        built_options download output_template).
Proof.
  split.
  - eexists _, _, _, _. rewrite !get_ydl_opts_run.
    split; [done|]. split; [done|]. rewrite !contents_insert.
    split; [done|]. split; [apply fresh_address_unused|].
    split; [|done]. intros l Hl. cbn. by rewrite lookup_insert_ne.
  - unfold outcome, mbind at 1, M_bind at 1. rewrite get_ydl_opts_run.
    set (a := fresh (dom (heap w1))).
    unfold mbind at 1, M_bind at 1, dict_setitem. rewrite contents_insert.
    cbn [heap stdout]. rewrite insert_insert_eq.
    unfold mbind at 1, M_bind at 1. rewrite get_ydl_opts_run. cbn [heap stdout].
    set (h := <[a := _]> (heap w1)). set (b := fresh (dom h)).
    assert (Hab : b ≠ a).
    { intros E. pose proof (is_fresh (dom h)) as Hf. fold b in Hf. rewrite E in Hf.
      apply Hf. unfold h. rewrite dom_insert_L. set_solver. }
    unfold mbind, M_bind, dict_load, contents. cbn.
    rewrite lookup_insert_eq, lookup_insert_ne by done.
    unfold h. by rewrite lookup_insert_eq.
Qed.

Lemma get_ydl_opts_deterministic_witness :
  ∃ a w',
    get_ydl_opts true PyNone Sample.empty_world = (Ok a, w') ∧
    heap w' !! S a = heap Sample.empty_world !! S a.
Proof.
  destruct (proj1 (get_ydl_opts_deterministic true PyNone Sample.empty_world
                     Sample.empty_world "format" (PyStr "best")))
    as (a & b & w1' & w2' & H1 & _ & _ & _ & Hframe & _).
  exists a, w1'. split; [exact H1|].
  apply Hframe. lia.
Defined.

(** ** Splitting a path *)

Lemma substring_whole (s : string) : substring 0 (String.length s) s = s.
Proof. induction s as [|c s IH]; [done|]. cbn. by rewrite IH. Qed.

Lemma substring_split (s : string) (n : nat) :
  (n ≤ String.length s)%nat →
  substring 0 n s +:+ substring n (String.length s - n) s = s.
Proof.
  revert n. induction s as [|c s IH]; intros n Hn.
  - cbn in Hn. by replace n with 0%nat by lia.
  - destruct n as [|n].
    + rewrite Nat.sub_0_r, substring_whole. by destruct s.
    + cbn [substring String.length Nat.sub]. rewrite append_cons.
      f_equal. apply IH. cbn in Hn. lia.
Qed.

Lemma rfind_bound (c : ascii) (s : string) :
  -1 ≤ Path.rfind c s < Z.of_nat (String.length s).
Proof.
  induction s as [|a s IH]; [cbn; lia|].
  cbn [Path.rfind String.length]. destruct (0 <=? Path.rfind c s) eqn:E.
  - lia.
  - destruct (Ascii.eqb a c); lia.
Qed.

Lemma skip_leading_dots_returns (p : string) (d n i : nat) (r : string * string) :
  Path.skip_leading_dots p d n i = Some r →
  r = (substring 0 d p, substring d (String.length p - d) p).
Proof.
  revert i. induction n as [|n IH]; intros i; [done|]. cbn.
  destruct (String.get i p) as [a|]; [|by intros [= <-]].
  destruct (Ascii.eqb a ".") eqn:E.
  - apply Ascii.eqb_eq in E. subst a. apply IH.
  - assert (Hne : a ≠ "."%char) by (by apply Ascii.eqb_neq).
    destruct a as [[] [] [] [] [] [] [] []]; try (by intros [= <-]).
    by destruct Hne.
Qed.

(** The two parts [splitext] returns make up the path. *)
Lemma splitext_parts (p : string) :
  fst (Path.splitext p) +:+ snd (Path.splitext p) = p.
Proof.
  unfold Path.splitext. destruct (_ <? _); [|apply append_nil_r].
  destruct (Path.skip_leading_dots _ _ _ _) as [r|] eqn:E; [|apply append_nil_r].
  apply skip_leading_dots_returns in E. subst r. cbn [fst snd].
  apply substring_split. pose proof (rfind_bound "." p). lia.
Qed.

(** ** What the handlers' own steps can raise

    Every exception the modelled steps raise themselves is an instance of
    [Exception]; only a collaborator can raise another one. *)








(** ** Running the handlers *)

Section HandlerFacts.

Variable repr_str : string → string.
Variable repr_float : spec_float → string.
Variable timestamp : Z.
Variable extract_info : gmap string pyval → pyval → bool → result pyval.
Variable prepare_filename : gmap string pyval → pyval → result string.
Variable path_exists : pyval → result bool.
Variable send_file : pyval → result unit.

Abbreviation get_video_info := (get_video_info repr_str repr_float extract_info).
Abbreviation download_video :=
  (download_video repr_str timestamp extract_info prepare_filename path_exists send_file).
Abbreviation resolve_filename := (resolve_filename repr_str prepare_filename).
Abbreviation deliver := (deliver path_exists send_file).
Abbreviation video_data := (video_data repr_str repr_float).

(** A request to /api/info whose body is a JSON object that carries a
    URL: one extractor call with the info options, then either the
    projected fields, or the fixed error, which is also the only thing
    printed, or an exception outside [Exception] on its way out. *)
Lemma get_video_info_run (fields : list (string * pyval)) (url : pyval) (w : world) :
  assoc "url" fields = Some url → truthy url = true →
  get_video_info (Ok (PyDict fields)) w =
    let w1 := World (<[fresh (dom (heap w)) := info_options]> (heap w)) (stdout w) in
    match extract_info info_options url false ≫= video_data url with
    | Ok body => (Ok (Json 200 body), w1)
    | Raise e =>
        if is_exception e then
          (Ok (Json 400 [("error", PyStr ERR_FETCH_INFO)]),
           World (heap w1) (stdout w ++ ["Error fetching info: " +:+ exn_str e]))
        else (Raise e, w1)
    end.
Proof.
  intros Hurl Ht.
  unfold get_video_info, mbind at 1, M_bind at 1, lift at 1.
  unfold mbind at 1, M_bind at 1, lift at 1. cbn [dict_get].
  rewrite Hurl, Ht. cbn [negb].
  unfold try_except, mbind at 1, M_bind at 1. rewrite get_ydl_opts_run.
  unfold mbind at 1, M_bind at 1, dict_load. rewrite contents_insert.
  unfold mbind at 1, M_bind at 1, lift at 1. cbn [built_options].
  destruct (extract_info info_options url false) as [info|e];
    [|cbn [mbind result_bind]; by destruct (is_exception e)].
  unfold mbind at 1, M_bind at 1, lift at 1.
  cbn [mbind result_bind].
  destruct (video_data url info) as [body|e]; [done|by destruct (is_exception e)].
Qed.

(** A request to /api/info whose body is a JSON object without a URL. *)
Lemma get_video_info_no_url (fields : list (string * pyval)) (w : world) :
  truthy match assoc "url" fields with Some url => url | None => PyNone end = false →
  get_video_info (Ok (PyDict fields)) w =
    (Ok (Json 400 [("error", PyStr ERR_URL_REQUIRED)]), w).
Proof.
  intros Ht.
  unfold get_video_info, mbind at 1, M_bind at 1, lift at 1.
  unfold mbind at 1, M_bind at 1, lift at 1. cbn [dict_get].
  by rewrite Ht.
Qed.


(** A request to /api/download that carries a URL. *)
Lemma download_video_run (args : list (string * string)) (u : string) (w : world) :
  assoc "url" args = Some u → u ≠ "" →
  download_video args w =
    let quality := match assoc "quality" args with Some q => q | None => DEFAULT_QUALITY end in
    let o := request_options timestamp quality in
    let w1 := World (<[fresh (dom (heap w)) := o]> (heap w)) (stdout w) in
    match (info ← extract_info o (PyStr u) true;
           filename ← resolve_filename o info;
           deliver filename : result response) with
    | Ok r => (Ok r, w1)
    | Raise e =>
        if is_exception e then
          (Ok (Json 500 [("error", PyStr (exn_str e))]),
           World (heap w1) (stdout w ++ ["Download error: " +:+ exn_str e]))
        else (Raise e, w1)
    end.
Proof.
  intros Hurl Hu.
  unfold download_video. rewrite Hurl. cbn [truthy].
  rewrite (proj2 (String.eqb_neq u "")) by done. cbn [negb].
  unfold try_except, mbind at 1, M_bind at 1. rewrite get_ydl_opts_run.
  unfold mbind at 1, M_bind at 1, dict_setitem. rewrite contents_insert.
  cbn [built_options heap stdout]. rewrite insert_insert_eq.
  unfold mbind at 1, M_bind at 1, dict_load. rewrite contents_insert.
  fold (request_options timestamp
          match assoc "quality" args with Some q => q | None => DEFAULT_QUALITY end).
  set (o := request_options _ _).
  unfold mbind at 1, M_bind at 1, lift at 1. cbn zeta.
  destruct (extract_info o (PyStr u) true) as [info|e];
    [|cbn [mbind result_bind]; by destruct (is_exception e)].
  unfold mbind at 1, M_bind at 1, lift at 1.
  cbn [mbind result_bind].
  destruct (resolve_filename o info) as [f|e];
    [|cbv [mbind M_bind lift result_bind]; by destruct (is_exception e)].
  unfold lift. cbn [mbind result_bind].
  destruct (deliver f) as [r|e]; [done|by destruct (is_exception e)].
Qed.

(** C3: a request to /api/info whose body is a JSON object with no url
    field or an empty one, and a request to /api/download whose url
    parameter is absent or empty, are answered with status 400 and the
    body {"error": "URL is required"}, whatever else the request carries;
    nothing is extracted and nothing is printed. *)
Theorem url_is_required :
  (∀ fields w,
     assoc "url" fields = None ∨ assoc "url" fields = Some (PyStr "") →
     get_video_info (Ok (PyDict fields)) w =
       (Ok (Json 400 [("error", PyStr "URL is required")]), w)) ∧
  (∀ args w,
     assoc "url" args = None ∨ assoc "url" args = Some "" →
     download_video args w =
       (Ok (Json 400 [("error", PyStr "URL is required")]), w)).
Proof.
  split.
  - intros fields w H. apply get_video_info_no_url. by destruct H as [-> | ->].
  - intros args w H. unfold download_video. by destruct H as [-> | ->].
Qed.



(** C10: when the extractor's result has no duration field, the Info
    Handler answers 200 and the duration field of the body is the text
    "None" (no default is substituted); and format_duration returns the
    string rendering of every argument that is neither an int nor a
    float, without raising. *)
Theorem missing_duration_renders_none :
  (∀ fields url info w,
     assoc "url" fields = Some url → truthy url = true →
     extract_info info_options url false = Ok (PyDict info) →
     assoc "duration" info = None →
     outcome (get_video_info (Ok (PyDict fields))) w =
       Ok (Json 200
             [("title", default (PyStr "Unknown Title") (assoc "title" info));
              ("thumbnail", default (PyStr "") (assoc "thumbnail" info));
              ("duration", PyStr "None");
              ("author", default (PyStr "Unknown Author") (assoc "uploader" info));
              ("webpage_url", default url (assoc "webpage_url" info))])) ∧
  (∀ x, as_number x = None →
        format_duration repr_str repr_float x = Ok (py_str repr_str repr_float x)) ∧
  format_duration repr_str repr_float PyNone = Ok "None".
Proof.
  split; [|split; [apply format_duration_non_number|done]].
  intros fields url info w Hurl Ht Hinfo Hd. unfold outcome.
  rewrite (get_video_info_run _ _ _ Hurl Ht). cbn zeta. rewrite Hinfo.
  cbn [mbind result_bind]. unfold video_data. cbn [dict_get mbind result_bind].
  rewrite Hd. cbn.
  by destruct (assoc "title" info), (assoc "thumbnail" info),
       (assoc "uploader" info), (assoc "webpage_url" info).
Qed.

(** C2: when the extractor's result contains a requested_downloads list,
    the resolved path is the filepath of its first entry, unchanged;
    otherwise it is the name derived from the template, with the
    extension replaced by ".mp4" whenever the extension is not ".mp4";
    the existence check and the attachment then use the resolved path. *)
Theorem resolved_path :
  (∀ o fields first rest path,
     assoc "requested_downloads" fields = Some (PyList (PyDict first :: rest)) →
     assoc "filepath" first = Some path →
     resolve_filename o (PyDict fields) = Ok path) ∧
  (∀ o fields filename,
     assoc "requested_downloads" fields = None →
     prepare_filename o (PyDict fields) = Ok filename →
     let base := fst (Path.splitext filename) in
     let ext := snd (Path.splitext filename) in
     filename = base +:+ ext ∧
     (ext ≠ ".mp4" → resolve_filename o (PyDict fields) = Ok (PyStr (base +:+ ".mp4"))) ∧
     (ext = ".mp4" → resolve_filename o (PyDict fields) = Ok (PyStr filename))) ∧
  (∀ args u w info f,
     assoc "url" args = Some u → u ≠ "" →
     let o := request_options timestamp
                match assoc "quality" args with Some q => q | None => "1080p" end in
     extract_info o (PyStr u) true = Ok info →
     resolve_filename o info = Ok f →
     outcome (download_video args) w =
       match deliver f with
       | Ok r => Ok r
       | Raise e =>
           if is_exception e then Ok (Json 500 [("error", PyStr (exn_str e))])
           else Raise e
       end) ∧
  Path.splitext "downloads/Clip_1700000000.mkv" = ("downloads/Clip_1700000000", ".mkv").
Proof.
  split; [|split; [|split; [|reflexivity]]].
  - intros o fields first rest path Hd Hp.
    unfold resolve_filename. cbn [contains]. rewrite Hd.
    cbn [mbind result_bind getitem_key]. rewrite Hd.
    cbn [mbind result_bind getitem_index Z.ltb Z.compare].
    change (Z.to_nat 0) with 0%nat. cbn [nth_error mbind result_bind getitem_key].
    by rewrite Hp.
  - intros o fields filename Hd Hf base ext.
    split; [symmetry; apply splitext_parts|].
    unfold resolve_filename. cbn [contains]. rewrite Hd.
    cbn [mbind result_bind]. rewrite Hf. cbn [mbind result_bind].
    subst base ext. destruct (Path.splitext filename) as [base ext]. cbn [fst snd].
    split; intros H.
    + by rewrite (proj2 (String.eqb_neq ext ".mp4") H).
    + by rewrite (proj2 (String.eqb_eq ext ".mp4") H).
  - intros args u w info f Hurl Hu o Hinfo Hf. unfold outcome.
    rewrite (download_video_run _ _ _ Hurl Hu). cbn zeta.
    unfold DEFAULT_QUALITY. fold o. rewrite Hinfo. cbn [mbind result_bind].
    rewrite Hf. cbn [mbind result_bind].
    destruct (deliver f) as [r|e]; [done|by destruct (is_exception e)].
Qed.

End HandlerFacts.

(** ** Concrete requests *)

Lemma url_is_required_witness :
  (assoc "url" [("quality", PyStr "720p")] = None ∨
   assoc "url" [("quality", PyStr "720p")] = Some (PyStr "")) ∧
  get_video_info Sample.repr_str Sample.repr_float Sample.failing_extractor
    (Ok (PyDict [("quality", PyStr "720p")])) Sample.empty_world =
    (Ok (Json 400 [("error", PyStr "URL is required")]), Sample.empty_world).
Proof.
  assert (H : assoc "url" [("quality", PyStr "720p")] = None ∨
              assoc "url" [("quality", PyStr "720p")] = Some (PyStr ""))
    by (left; reflexivity).
  split; [exact H|].
  exact (proj1 (url_is_required Sample.repr_str Sample.repr_float 1700000000
                  Sample.failing_extractor Sample.prepare_filename
                  Sample.path_exists Sample.send_file)
           [("quality", PyStr "720p")] Sample.empty_world H).
Defined.

(** A request to /api/info without a url whose body is the JSON value
    null, or an empty JSON array, or not JSON at all, is not answered
    with the 400 of a missing url: an exception leaves the handler. *)
Lemma info_body_must_be_an_object :
  get_video_info Sample.repr_str Sample.repr_float Sample.failing_extractor
    (Ok PyNone) Sample.empty_world =
    (Raise (Exn "AttributeError" "'NoneType' object has no attribute 'get'"),
     Sample.empty_world) ∧
  get_video_info Sample.repr_str Sample.repr_float Sample.failing_extractor
    (Ok (PyList [])) Sample.empty_world =
    (Raise (Exn "AttributeError" "'list' object has no attribute 'get'"),
     Sample.empty_world) ∧
  get_video_info Sample.repr_str Sample.repr_float Sample.failing_extractor
    (Raise Sample2.not_json) Sample.empty_world =
    (Raise Sample2.not_json, Sample.empty_world).
Proof. repeat split. Qed.





Lemma missing_duration_renders_none_witness :
  outcome (get_video_info Sample.repr_str Sample.repr_float
             (Sample.extractor (PyDict Sample.untimed_video))
             (Ok (PyDict [("url", PyStr "https://example.com/v")]))) Sample.empty_world =
    Ok (Json 200 [("title", PyStr "Clip");
                  ("thumbnail", PyStr "");
                  ("duration", PyStr "None");
                  ("author", PyStr "Someone");
                  ("webpage_url", PyStr "https://example.com/v")]).
Proof.
  exact (proj1 (missing_duration_renders_none Sample.repr_str Sample.repr_float
                  (Sample.extractor (PyDict Sample.untimed_video)))
           [("url", PyStr "https://example.com/v")] (PyStr "https://example.com/v")
           Sample.untimed_video Sample.empty_world eq_refl eq_refl eq_refl eq_refl).
Defined.

Lemma resolved_path_witness :
  resolve_filename Sample.repr_str Sample.prepare_filename ∅
    (PyDict Sample.downloaded_video) =
    Ok (PyStr "downloads/Clip_1700000000.mp4") ∧
  resolve_filename Sample.repr_str Sample.prepare_filename ∅
    (PyDict Sample.untimed_video) =
    Ok (PyStr "downloads/Clip_1700000000.mp4").
Proof.
  pose proof (resolved_path Sample.repr_str 1700000000
                (Sample.extractor (PyDict Sample.untimed_video))
                Sample.prepare_filename Sample.path_exists Sample.send_file)
    as (Hlist & Hname & _ & Hsplit).
  split.
  - exact (Hlist ∅ Sample.downloaded_video
             [("filepath", PyStr "downloads/Clip_1700000000.mp4")] []
             (PyStr "downloads/Clip_1700000000.mp4") eq_refl eq_refl).
  - pose proof (Hname ∅ Sample.untimed_video
                  "downloads/Clip_1700000000.mkv" eq_refl eq_refl) as H.
    cbv zeta in H. rewrite Hsplit in H. cbn [fst snd] in H.
    destruct H as (_ & H & _). apply H. discriminate.
Defined.

(** ** More on durations *)

Lemma append_length (s t : string) :
  String.length (s +:+ t) = (String.length s + String.length t)%nat.
Proof. induction s as [|c s IH]; [done|]. rewrite append_cons. cbn. by rewrite IH. Qed.

(** Two concatenations with tails of one length agree part by part. *)
Lemma append_inj_tail (s1 s2 t1 t2 : string) :
  String.length t1 = String.length t2 →
  s1 +:+ t1 = s2 +:+ t2 → s1 = s2 ∧ t1 = t2.
Proof.
  revert s2. induction s1 as [|c s1 IH]; intros [|c2 s2] Hlen H.
  - done.
  - rewrite append_nil_l in H. subst t1. rewrite append_length in Hlen. cbn in Hlen. lia.
  - rewrite append_nil_l in H. subst t2. rewrite append_length in Hlen. cbn in Hlen. lia.
  - rewrite !append_cons in H. injection H as -> H.
    destruct (IH s2 Hlen H) as [-> ->]. done.
Qed.

Lemma format_int_inj (a b : Z) : format_int a = format_int b → a = b.
Proof.
  intros H. pose proof (read_format_int a) as Ha. rewrite H, read_format_int in Ha.
  congruence.
Qed.

Lemma read_two_digits (s : Z) : 0 ≤ s < 100 → read_int (two_digits s) = Some s.
Proof.
  intros Hs. rewrite <- (Z2Nat.id s) by lia.
  assert (Hn : (Z.to_nat s < 100)%nat) by lia.
  generalize dependent (Z.to_nat s). clear. intros n Hn.
  do 100 (destruct n as [|n]; [reflexivity|]). lia.
Qed.

(** X1: an integer duration of either sign is rendered as the numeral of
    a minute count m and two digits of a second count s with
    D = 60 m + s and 0 <= s < 60; a negative duration therefore shows the
    minutes rounded down and the seconds counted up from there. *)
Theorem format_duration_minutes_and_seconds
    (repr_str : string → string) (repr_float : spec_float → string) (D : Z) :
  ∃ m s,
    D = 60 * m + s ∧ 0 ≤ s < 60 ∧
    format_duration repr_str repr_float (PyInt D) =
      Ok (format_int m +:+ ":" +:+ two_digits s) ∧
    read_int (format_int m) = Some m ∧ read_int (two_digits s) = Some s.
Proof.
  exists (D / 60), (D mod 60).
  pose proof (Z.mod_pos_bound D 60 ltac:(lia)) as Hs.
  pose proof (Z.div_mod D 60 ltac:(lia)) as Hd.
  split; [lia|]. split; [lia|]. split.
  - rewrite format_duration_int, zero_padded_two_digits; [done|lia].
  - split; [apply read_format_int|apply read_two_digits; lia].
Qed.

(** X2: two different integer durations never get the same text. *)
Theorem format_duration_injective
    (repr_str : string → string) (repr_float : spec_float → string) (D1 D2 : Z) :
  format_duration repr_str repr_float (PyInt D1) =
    format_duration repr_str repr_float (PyInt D2) →
  D1 = D2.
Proof.
  rewrite !format_duration_int.
  pose proof (Z.mod_pos_bound D1 60 ltac:(lia)) as H1.
  pose proof (Z.mod_pos_bound D2 60 ltac:(lia)) as H2.
  rewrite !zero_padded_two_digits by lia. intros [= H].
  apply append_inj_tail in H as [Hm Hs]; [|done].
  apply format_int_inj in Hm. injection Hs as Hs.
  assert (Hs' : two_digits (D1 mod 60) = two_digits (D2 mod 60)).
  { unfold two_digits. congruence. }
  pose proof (read_two_digits (D1 mod 60) ltac:(lia)) as R1.
  rewrite Hs', read_two_digits in R1 by lia.
  pose proof (Z.div_mod D1 60 ltac:(lia)). pose proof (Z.div_mod D2 60 ltac:(lia)).
  assert (D2 mod 60 = D1 mod 60) by congruence. lia.
Qed.

Lemma format_duration_injective_witness :
  754 = 754 ∧
  format_duration Sample.repr_str Sample.repr_float (PyInt 61) ≠
  format_duration Sample.repr_str Sample.repr_float (PyInt 3660).
Proof.
  split.
  - exact (format_duration_injective Sample.repr_str Sample.repr_float 754 754 eq_refl).
  - intros H.
    pose proof (format_duration_injective Sample.repr_str Sample.repr_float 61 3660 H) as E.
    discriminate E.
Defined.

Lemma floor_of_quotient (a b c : Z) :
  0 < b → 0 < c →
  a / (b * c) = a / c / b ∧ (a mod (b * c)) / c = (a / c) mod b.
Proof.
  intros Hb Hc. split.
  - rewrite (Z.mul_comm b c). symmetry. apply Z.div_div; lia.
  - rewrite (Z.mul_comm b c), Z.rem_mul_r by lia.
    rewrite (Z.mul_comm c), Z.div_add by lia.
    rewrite Z.div_small; [lia|]. apply Z.mod_pos_bound. lia.
Qed.

(** X17: the fraction of a float duration is dropped, not rounded: a
    well-formed float duration D with 0 <= D < 2^53 gets the text of the
    integer floor(D). *)
Theorem format_duration_drops_fraction
    (repr_str : string → string) (repr_float : spec_float → string) (f : spec_float) :
  small_duration f = true →
  format_duration repr_str repr_float (PyFloat f) =
    format_duration repr_str repr_float (PyInt (float_units f / 2 ^ 1074)).
Proof.
  intros Hf. destruct (float_minutes_seconds f Hf) as (Hmin & Hsec & Hrange).
  rewrite format_duration_int.
  unfold format_duration. cbn [as_number]. rewrite Hmin. cbn [mbind result_bind].
  rewrite Hsec. cbn [mbind result_bind mret result_ret].
  unfold exact_floor_div, exact_floor_mod.
  pose proof (Z.pow_pos_nonneg 2 1074 ltac:(lia) ltac:(lia)) as HU.
  destruct (floor_of_quotient (float_units f) 60 (2 ^ 1074) ltac:(lia) HU) as [-> ->].
  done.
Qed.

Lemma format_duration_drops_fraction_witness :
  format_duration Sample.repr_str Sample.repr_float (PyFloat Sample.seconds_754_5) =
  format_duration Sample.repr_str Sample.repr_float (PyInt 754).
Proof.
  assert (H : small_duration Sample.seconds_754_5 = true) by (vm_compute; reflexivity).
  rewrite (format_duration_drops_fraction Sample.repr_str Sample.repr_float
             Sample.seconds_754_5 H).
  vm_compute. reflexivity.
Defined.

(** ** More on the Format Selector and the output template *)

(** X3: whatever the label, the selector returns one of five expressions:
    "best" or the cap at 1080, 720, 480 or 360; no other text of the label
    reaches the expression. *)
Theorem format_selector_range (quality : string) :
  In (get_quality_format_string quality) selectable_formats.
Proof.
  rewrite selector_by_height.
  destruct (Str.mem (Str.without "p" quality) heights) eqn:E; [|by left].
  apply mem_In in E. right. unfold selectable_formats. by apply in_map.
Qed.

Lemma append_cancel_l (s a b : string) : s +:+ a = s +:+ b → a = b.
Proof.
  induction s as [|c s IH]; [done|]. rewrite !append_cons. intros [= H]. by apply IH.
Qed.

Lemma output_template_shape (timestamp : Z) :
  output_template timestamp =
    "downloads/%(title)s_" +:+ format_int timestamp +:+ ".%(ext)s".
Proof. reflexivity. Qed.

(** X4: the output template is the download directory, a slash, the
    title placeholder, an underscore, the decimal timestamp, a dot and the
    extension placeholder; requests at different seconds get different
    templates. *)
Theorem output_template_per_second (t1 t2 : Z) :
  output_template t1 = "downloads/%(title)s_" +:+ format_int t1 +:+ ".%(ext)s" ∧
  (output_template t1 = output_template t2 → t1 = t2).
Proof.
  split; [apply output_template_shape|].
  rewrite !output_template_shape. intros H.
  apply append_cancel_l in H. apply append_inj_tail in H as [H _]; [|done].
  by apply format_int_inj.
Qed.

Lemma output_template_per_second_witness :
  1700000000 = 1700000000 ∧ output_template 1700000000 ≠ output_template 1700000001.
Proof.
  split.
  - exact (proj2 (output_template_per_second 1700000000 1700000000) eq_refl).
  - intros H. pose proof (proj2 (output_template_per_second _ _) H) as E. discriminate E.
Defined.

(** ** More on the resolved file name *)

Lemma rfind_absent (c : ascii) (s : string) :
  Path.rfind c s < 0 → Str.occurs c s = false.
Proof.
  induction s as [|a s IH]; [done|]. cbn [Path.rfind Str.occurs].
  destruct (0 <=? Path.rfind c s) eqn:E.
  - apply Z.leb_le in E. lia.
  - apply Z.leb_gt in E. destruct (Ascii.eqb a c); [lia|]. intros _. by apply IH.
Qed.

(** From the last occurrence of a character on, the string is that
    character and a rest without it. *)
Lemma rfind_tail (c : ascii) (s : string) (d : nat) :
  Path.rfind c s = Z.of_nat d →
  ∃ t, substring d (String.length s - d) s = String c t ∧ Str.occurs c t = false.
Proof.
  revert d. induction s as [|a s IH]; intros d; [cbn; lia|].
  cbn [Path.rfind]. destruct (0 <=? Path.rfind c s) eqn:E.
  - apply Z.leb_le in E. intros H. destruct d as [|d]; [lia|].
    destruct (IH d ltac:(lia)) as (t & Ht & Hocc). exists t. by split.
  - apply Z.leb_gt in E. destruct (Ascii.eqb a c) eqn:Ea; [|lia].
    intros H. assert (d = 0%nat) as -> by lia.
    apply Ascii.eqb_eq in Ea. subst a. exists s.
    rewrite Nat.sub_0_r, substring_whole. split; [done|]. by apply rfind_absent.
Qed.

(** After a position beyond the last occurrence the character is absent. *)
Lemma rfind_before (c : ascii) (s : string) (d : nat) :
  Path.rfind c s < Z.of_nat d →
  Str.occurs c (substring d (String.length s - d) s) = false.
Proof.
  revert d. induction s as [|a s IH]; intros d H.
  - by destruct d.
  - destruct d as [|d].
    + rewrite Nat.sub_0_r, substring_whole. apply rfind_absent. lia.
    + cbn [substring String.length Nat.sub]. apply IH.
      cbn [Path.rfind] in H. destruct (0 <=? Path.rfind c s) eqn:E.
      * lia.
      * apply Z.leb_gt in E. lia.
Qed.

(** The extension [splitext] returns is empty, or a dot and a rest with
    neither a dot nor a slash. *)
Lemma splitext_extension (p : string) :
  snd (Path.splitext p) = "" ∨
  ∃ t, snd (Path.splitext p) = String "." t ∧
       Str.occurs "." t = false ∧ Str.occurs "/" t = false.
Proof.
  unfold Path.splitext. destruct (_ <? _) eqn:Hlt; [|by left].
  apply Z.ltb_lt in Hlt.
  destruct (Path.skip_leading_dots _ _ _ _) as [r|] eqn:E; [|by left].
  apply skip_leading_dots_returns in E. subst r. cbn [snd]. right.
  pose proof (rfind_bound "/" p) as Hsep. pose proof (rfind_bound "." p) as Hdot.
  destruct (rfind_tail "." p (Z.to_nat (Path.rfind "." p)) ltac:(lia)) as (t & Ht & Hocc).
  exists t. split; [done|]. split; [done|].
  pose proof (rfind_before "/" p (Z.to_nat (Path.rfind "." p)) ltac:(lia)) as Hs.
  rewrite Ht in Hs. exact Hs.
Qed.

(** A string without the character has no last occurrence of it. *)
Lemma occurs_rfind (c : ascii) (s : string) :
  Str.occurs c s = false → Path.rfind c s = -1.
Proof.
  induction s as [|a s IH]; [done|]. cbn [Str.occurs Path.rfind].
  intros H. apply orb_false_elim in H as [Ha Hs]. by rewrite (IH Hs), Ha.
Qed.

Lemma rfind_app (c : ascii) (s t : string) :
  Path.rfind c (s +:+ t) =
    if 0 <=? Path.rfind c t then Z.of_nat (String.length s) + Path.rfind c t
    else Path.rfind c s.
Proof.
  induction s as [|a s IH].
  - rewrite append_nil_l. pose proof (rfind_bound c t).
    destruct (0 <=? Path.rfind c t) eqn:E; cbn [String.length Path.rfind]; [lia|].
    apply Z.leb_gt in E. lia.
  - rewrite append_cons. cbn [Path.rfind String.length]. rewrite IH.
    destruct (0 <=? Path.rfind c t) eqn:E; [|done].
    apply Z.leb_le in E.
    rewrite (proj2 (Z.leb_le 0 (Z.of_nat (String.length s) + Path.rfind c t))) by lia.
    lia.
Qed.

Lemma append_assoc (s t u : string) : (s +:+ t) +:+ u = s +:+ (t +:+ u).
Proof. induction s as [|c s IH]; [done|]. rewrite !append_cons. by rewrite IH. Qed.

Lemma get_app_head (a r : string) (c : ascii) :
  String.get (String.length a) (a +:+ String c r) = Some c.
Proof. induction a as [|x a IH]; [done|]. rewrite append_cons. exact IH. Qed.

Lemma substring_app_l (s r : string) :
  substring 0 (String.length s) (s +:+ r) = s.
Proof.
  induction s as [|c s IH]; [by destruct r|].
  rewrite append_cons. cbn [String.length substring]. by rewrite IH.
Qed.

Lemma substring_app_r (s r : string) :
  substring (String.length s) (String.length (s +:+ r) - String.length s) (s +:+ r) = r.
Proof.
  rewrite append_length.
  replace (String.length s + String.length r - String.length s)%nat
    with (String.length r) by lia.
  induction s as [|c s IH]; [apply substring_whole|].
  rewrite append_cons. exact IH.
Qed.

(** The loop returns at the first character of the file name that is
    not a dot. *)
Lemma skip_leading_dots_finds (p : string) (d n i j : nat) (ch : ascii) :
  (i ≤ j < i + n)%nat → String.get j p = Some ch → ch ≠ "."%char →
  Path.skip_leading_dots p d n i =
    Some (substring 0 d p, substring d (String.length p - d) p).
Proof.
  revert i. induction n as [|n IH]; intros i Hj Hget Hne; [lia|]. cbn.
  destruct (String.get i p) as [a|] eqn:Ei; [|done].
  destruct (Ascii.eqb a ".") eqn:E.
  - apply Ascii.eqb_eq in E. subst a. apply IH; [|done|done].
    destruct (decide (i = j)) as [->|]; [congruence|lia].
  - assert (Ha : a ≠ "."%char) by (by apply Ascii.eqb_neq).
    by destruct a as [[] [] [] [] [] [] [] []].
Qed.

(** A name [stem.t] is split at its last dot, when [t] has neither a
    dot nor a slash and the last component of [stem] has a character that
    is not a dot. *)
Lemma splitext_cuts_extension (dir rest t : string) (c : ascii) :
  c ≠ "."%char → c ≠ "/"%char → Str.occurs "/" rest = false →
  Str.occurs "." t = false → Str.occurs "/" t = false →
  Path.splitext ((dir +:+ String c rest) +:+ "." +:+ t) =
    (dir +:+ String c rest, "." +:+ t).
Proof.
  intros Hc1 Hc2 Hrest Ht1 Ht2.
  change ("." +:+ t) with (String "." t). set (stem := dir +:+ String c rest).
  assert (Hlen : String.length stem = (String.length dir + S (String.length rest))%nat)
    by (unfold stem; by rewrite append_length).
  assert (Hdot : Path.rfind "." (stem +:+ String "." t) = Z.of_nat (String.length stem)).
  { rewrite rfind_app. cbn [Path.rfind]. rewrite (occurs_rfind _ _ Ht1).
    change (Z.of_nat (String.length stem) + 0 = Z.of_nat (String.length stem)). lia. }
  assert (Hsep : Path.rfind "/" (stem +:+ String "." t) = Path.rfind "/" dir).
  { rewrite rfind_app. cbn [Path.rfind]. rewrite (occurs_rfind _ _ Ht2).
    change (Path.rfind "/" stem = Path.rfind "/" dir).
    unfold stem. rewrite rfind_app. cbn [Path.rfind]. rewrite (occurs_rfind _ _ Hrest).
    by rewrite (proj2 (Ascii.eqb_neq c "/") Hc2). }
  pose proof (rfind_bound "/" dir) as Hbound.
  unfold Path.splitext. rewrite Hdot, Hsep.
  rewrite (proj2 (Z.ltb_lt _ _)) by lia.
  rewrite (skip_leading_dots_finds _ _ _ _ (String.length dir) c).
  - by rewrite Nat2Z.id, substring_app_l, substring_app_r.
  - lia.
  - unfold stem. rewrite append_assoc, append_cons. apply get_app_head.
  - done.
Qed.

(** A name without a dot has no extension. *)
Lemma splitext_no_dot (p : string) :
  Str.occurs "." p = false → Path.splitext p = (p, "").
Proof.
  intros H. unfold Path.splitext. rewrite (occurs_rfind _ _ H).
  pose proof (rfind_bound "/" p). by rewrite (proj2 (Z.ltb_ge _ _)) by lia.
Qed.

(** ** More on the handlers *)

Lemma not_dict_get (v : pyval) (key : string) (default : pyval) :
  (∀ d, v ≠ PyDict d) →
  dict_get v key default =
    Raise (Exn "AttributeError" ("'" +:+ type_name v +:+ "' object has no attribute 'get'")).
Proof. intros H. destruct v; try done. by destruct (H d). Qed.

Section MoreHandlerFacts.

Variable repr_str : string → string.
Variable repr_float : spec_float → string.
Variable timestamp : Z.
Variable extract_info : gmap string pyval → pyval → bool → result pyval.
Variable prepare_filename : gmap string pyval → pyval → result string.
Variable path_exists : pyval → result bool.
Variable send_file : pyval → result unit.

Abbreviation get_video_info := (get_video_info repr_str repr_float extract_info).
Abbreviation download_video :=
  (download_video repr_str timestamp extract_info prepare_filename path_exists send_file).
Abbreviation resolve_filename := (resolve_filename repr_str prepare_filename).
Abbreviation deliver := (deliver path_exists send_file).
Abbreviation video_data := (video_data repr_str repr_float).
Abbreviation quality_of args :=
  (match assoc "quality" args with Some q => q | None => "1080p" end).

(** X5: without a list of produced downloads the resolved name is the
    root [os.path.splitext] gives for the derived name, followed by
    ".mp4".  So a derived name [stem.t], in which [t] has neither a dot nor
    a slash and the last component of [stem] has a character that is not a
    dot, resolves to [stem.mp4]: the extension is cut off at the last dot
    and replaced, and the directory part is kept; and a derived name
    without any dot gets ".mp4" appended. *)
Theorem fallback_name_ends_in_mp4 (o : gmap string pyval)
    (fields : list (string * pyval)) (filename : string) :
  assoc "requested_downloads" fields = None →
  prepare_filename o (PyDict fields) = Ok filename →
  resolve_filename o (PyDict fields) =
    Ok (PyStr (fst (Path.splitext filename) +:+ ".mp4")) ∧
  (∀ dir c rest t,
     filename = (dir +:+ String c rest) +:+ "." +:+ t →
     c ≠ "."%char → c ≠ "/"%char → Str.occurs "/" rest = false →
     Str.occurs "." t = false → Str.occurs "/" t = false →
     resolve_filename o (PyDict fields) = Ok (PyStr ((dir +:+ String c rest) +:+ ".mp4"))) ∧
  (Str.occurs "." filename = false →
   resolve_filename o (PyDict fields) = Ok (PyStr (filename +:+ ".mp4"))).
Proof.
  intros Hd Hf.
  assert (Hres : resolve_filename o (PyDict fields) =
                 Ok (PyStr (fst (Path.splitext filename) +:+ ".mp4"))).
  { pose proof (splitext_parts filename) as Hparts.
    unfold resolve_filename. cbn [contains]. rewrite Hd.
    cbn [mbind result_bind]. rewrite Hf. cbn [mbind result_bind].
    destruct (Path.splitext filename) as [base ext]. cbn [fst snd] in *.
    destruct (String.eqb ext ".mp4") eqn:E; cbn [negb]; [|done].
    apply String.eqb_eq in E. subst ext. by rewrite Hparts. }
  split; [exact Hres|]. split.
  - intros dir c rest t -> Hc1 Hc2 Hrest Ht1 Ht2. rewrite Hres.
    by rewrite splitext_cuts_extension.
  - intros Hdot. rewrite Hres. by rewrite splitext_no_dot.
Qed.

(** X6: when the extractor succeeds with a dictionary whose duration can
    be formatted, /api/info answers 200 with exactly the five fields
    title, thumbnail, duration, author, webpage_url: a present field is
    passed on unchanged, a missing title, thumbnail or uploader becomes
    "Unknown Title", "" or "Unknown Author", a missing webpage_url becomes
    the requested url; nothing is printed. *)
Theorem info_success_projection (fields info : list (string * pyval))
    (url : pyval) (text : string) (w : world) :
  assoc "url" fields = Some url → truthy url = true →
  extract_info info_options url false = Ok (PyDict info) →
  format_duration repr_str repr_float (default PyNone (assoc "duration" info)) = Ok text →
  outcome (get_video_info (Ok (PyDict fields))) w =
    Ok (Json 200
          [("title", default (PyStr "Unknown Title") (assoc "title" info));
           ("thumbnail", default (PyStr "") (assoc "thumbnail" info));
           ("duration", PyStr text);
           ("author", default (PyStr "Unknown Author") (assoc "uploader" info));
           ("webpage_url", default url (assoc "webpage_url" info))]) ∧
  printed (get_video_info (Ok (PyDict fields))) w = stdout w.
Proof.
  intros Hurl Ht Hinfo Hd. unfold outcome, printed.
  rewrite (get_video_info_run _ _ _ _ _ _ Hurl Ht). cbn zeta. rewrite Hinfo.
  cbn [mbind result_bind]. unfold video_data. cbn [dict_get mbind result_bind].
  assert (Hdur : format_duration repr_str repr_float
                   match assoc "duration" info with Some x => x | None => PyNone end =
                 Ok text) by (by destruct (assoc "duration" info)).
  rewrite Hdur. cbn [mbind result_bind mret result_ret].
  by destruct (assoc "title" info), (assoc "thumbnail" info),
       (assoc "uploader" info), (assoc "webpage_url" info).
Qed.

(** X7: when the extractor returns something that is not a dictionary
    (None, for one), /api/info answers the fixed 400 of a failed
    extraction, and the printed line names the missing [get] attribute. *)
Theorem info_result_not_a_dict (fields : list (string * pyval)) (url info : pyval)
    (w : world) :
  assoc "url" fields = Some url → truthy url = true →
  extract_info info_options url false = Ok info → (∀ d, info ≠ PyDict d) →
  outcome (get_video_info (Ok (PyDict fields))) w =
    Ok (Json 400 [("error", PyStr "Could not fetch video info. Please check the URL.")]) ∧
  printed (get_video_info (Ok (PyDict fields))) w =
    (stdout w ++ ["Error fetching info: '" +:+ type_name info +:+
                  "' object has no attribute 'get'"])%list.
Proof.
  intros Hurl Ht Hinfo Hnd. unfold outcome, printed.
  rewrite (get_video_info_run _ _ _ _ _ _ Hurl Ht). cbn zeta. rewrite Hinfo.
  cbn [mbind result_bind]. unfold video_data.
  rewrite (not_dict_get info "title" _ Hnd). cbn [mbind result_bind]. done.
Qed.

(** X8: a duration that is NaN or infinite cannot be formatted:
    format_duration raises ValueError, with the NaN message also for an
    infinity, and /api/info then answers the fixed 400 although the
    extraction itself succeeded. *)
Theorem info_non_finite_duration (fields info : list (string * pyval))
    (url : pyval) (f : spec_float) (w : world) :
  assoc "url" fields = Some url → truthy url = true →
  extract_info info_options url false = Ok (PyDict info) →
  assoc "duration" info = Some (PyFloat f) →
  (f = S754_nan ∨ ∃ s, f = S754_infinity s) →
  format_duration repr_str repr_float (PyFloat f) =
    Raise (Exn "ValueError" "cannot convert float NaN to integer") ∧
  outcome (get_video_info (Ok (PyDict fields))) w =
    Ok (Json 400 [("error", PyStr "Could not fetch video info. Please check the URL.")]) ∧
  printed (get_video_info (Ok (PyDict fields))) w =
    (stdout w ++ ["Error fetching info: cannot convert float NaN to integer"])%list.
Proof.
  intros Hurl Ht Hinfo Hd Hf.
  assert (Hraise : format_duration repr_str repr_float (PyFloat f) =
                   Raise (Exn "ValueError" "cannot convert float NaN to integer")).
  { destruct Hf as [->|[s ->]]; [reflexivity|]. by destruct s; vm_compute. }
  split; [exact Hraise|]. unfold outcome, printed.
  rewrite (get_video_info_run _ _ _ _ _ _ Hurl Ht). cbn zeta. rewrite Hinfo.
  cbn [mbind result_bind]. unfold video_data. cbn [dict_get mbind result_bind].
  rewrite Hd, Hraise. cbn [mbind result_bind]. done.
Qed.






(** X11: when the extraction succeeds but the resolved name is empty or
    the file does not exist, /api/download answers 500 with the body
    {"error": "File not found after download"}; this failure is not
    printed. *)
Theorem download_file_not_found (args : list (string * string)) (u : string)
    (info f : pyval) (w : world) :
  assoc "url" args = Some u → u ≠ "" →
  extract_info (request_options timestamp (quality_of args)) (PyStr u) true = Ok info →
  resolve_filename (request_options timestamp (quality_of args)) info = Ok f →
  truthy f = false ∨ path_exists f = Ok false →
  outcome (download_video args) w =
    Ok (Json 500 [("error", PyStr "File not found after download")]) ∧
  printed (download_video args) w = stdout w.
Proof.
  intros Hurl Hu Hinfo Hf Hmiss. unfold outcome, printed.
  rewrite (download_video_run _ _ _ _ _ _ _ _ _ Hurl Hu). cbn zeta.
  unfold DEFAULT_QUALITY. rewrite Hinfo. cbn [mbind result_bind].
  rewrite Hf. cbn [mbind result_bind]. unfold deliver.
  destruct (truthy f); [|done].
  destruct Hmiss as [Hm|Hm]; [done|]. by rewrite Hm.
Qed.

(** X12: when the resolved file exists, /api/download answers with the
    attachment of exactly the resolved name; if sending it fails with an
    instance of Exception, the answer is a 500 that carries the text of
    that error, and nothing is printed in either case; an exception of
    [send_file] that is not an instance of Exception passes both [except]
    clauses and leaves the handler. *)
Theorem download_sends_resolved_file (args : list (string * string)) (u : string)
    (info f : pyval) (w : world) :
  assoc "url" args = Some u → u ≠ "" →
  extract_info (request_options timestamp (quality_of args)) (PyStr u) true = Ok info →
  resolve_filename (request_options timestamp (quality_of args)) info = Ok f →
  truthy f = true → path_exists f = Ok true →
  outcome (download_video args) w =
    match send_file f with
    | Ok _ => Ok (Attachment f)
    | Raise file_error =>
        if is_exception file_error
        then Ok (Json 500 [("error", PyStr (exn_str file_error))])
        else Raise file_error
    end ∧
  printed (download_video args) w = stdout w.
Proof.
  intros Hurl Hu Hinfo Hf Ht He. unfold outcome, printed.
  rewrite (download_video_run _ _ _ _ _ _ _ _ _ Hurl Hu). cbn zeta.
  unfold DEFAULT_QUALITY. rewrite Hinfo. cbn [mbind result_bind].
  rewrite Hf. cbn [mbind result_bind]. unfold deliver.
  rewrite Ht, He. cbn [mbind result_bind].
  destruct (send_file f) as [|e]; [done|].
  destruct (is_exception e) eqn:Hex; [done|]. cbv iota. by rewrite Hex.
Qed.

(** X13: an empty list of produced downloads is not treated as a missing
    one: the name derived from the template is not used, the index error
    is caught, printed, and answered with 500 and its text. *)
Theorem download_empty_list_is_an_error (args : list (string * string)) (u : string)
    (fields : list (string * pyval)) (w : world) :
  assoc "url" args = Some u → u ≠ "" →
  extract_info (request_options timestamp (quality_of args)) (PyStr u) true =
    Ok (PyDict fields) →
  assoc "requested_downloads" fields = Some (PyList []) →
  outcome (download_video args) w =
    Ok (Json 500 [("error", PyStr "list index out of range")]) ∧
  printed (download_video args) w =
    (stdout w ++ ["Download error: list index out of range"])%list.
Proof.
  intros Hurl Hu Hinfo Hd. unfold outcome, printed.
  rewrite (download_video_run _ _ _ _ _ _ _ _ _ Hurl Hu). cbn zeta.
  unfold DEFAULT_QUALITY. rewrite Hinfo. cbn [mbind result_bind].
  unfold resolve_filename. cbn [contains]. rewrite Hd.
  cbn [mbind result_bind getitem_key]. rewrite Hd. done.
Qed.

(** X14: the answer of /api/download depends on the quality parameter
    only through the format expression selected for it: two requests for
    the same url whose qualities select the same expression are answered
    alike; so a missing quality is the same as 1080p, and all labels that
    are not recognised are the same. *)
Theorem download_quality_through_format (args1 args2 : list (string * string))
    (w : world) :
  assoc "url" args1 = assoc "url" args2 →
  get_quality_format_string (quality_of args1) =
    get_quality_format_string (quality_of args2) →
  download_video args1 w = download_video args2 w.
Proof.
  intros Hurl Hq. unfold download_video, DEFAULT_QUALITY. cbv zeta.
  by rewrite Hurl, Hq.
Qed.

Lemma run_keeps (h : gmap nat (gmap string pyval)) (o : gmap string pyval) (l : nat) :
  is_Some (h !! l) → <[fresh (dom h) := o]> h !! l = h !! l.
Proof.
  intros Hl. apply lookup_insert_ne. intros E.
  apply elem_of_dom in Hl. rewrite <- E in Hl. by apply is_fresh in Hl.
Qed.

(** X15: a request changes no dictionary that existed before it (its
    options live in a new one), and it only adds to what was printed;
    this holds whatever [request.get_json()] does, and also when an
    exception leaves the handler. *)
Theorem handlers_keep_existing_objects (get_json : result pyval)
    (args : list (string * string)) (w : world) (l : nat) :
  is_Some (heap w !! l) →
  (heap (snd (get_video_info get_json w)) !! l = heap w !! l ∧
   ∃ more, stdout (snd (get_video_info get_json w)) = (stdout w ++ more)%list) ∧
  (heap (snd (download_video args w)) !! l = heap w !! l ∧
   ∃ more, stdout (snd (download_video args w)) = (stdout w ++ more)%list).
Proof.
  intros Hl.
  assert (Hsame : ∀ (w' : world), w' = w →
            heap w' !! l = heap w !! l ∧ ∃ more, stdout w' = (stdout w ++ more)%list).
  { intros w' ->. split; [done|]. exists []. by rewrite app_nil_r. }
  assert (Hnil : ∀ out : list string, ∃ more, out = (out ++ more)%list).
  { intros out. exists []. by rewrite app_nil_r. }
  split.
  - destruct get_json as [data|e]; [|by apply Hsame].
    destruct data as [| | | | | |fields]; try (by apply Hsame).
    destruct (truthy match assoc "url" fields with Some url => url | None => PyNone end)
      eqn:Ht.
    + destruct (assoc "url" fields) as [url|] eqn:Hurl; [|done].
      rewrite (get_video_info_run _ _ _ _ _ _ Hurl Ht). cbn zeta.
      destruct (_ ≫= _) as [body|e]; [|destruct (is_exception e)];
        cbn [snd heap stdout]; (split; [by apply run_keeps|]);
        [apply Hnil|by eexists|apply Hnil].
    + apply Hsame. by rewrite (get_video_info_no_url _ _ _ _ _ Ht).
  - destruct (assoc "url" args) as [u|] eqn:Hurl.
    + destruct (string_dec u "") as [->|Hu].
      * apply Hsame. unfold download_video. by rewrite Hurl.
      * rewrite (download_video_run _ _ _ _ _ _ _ _ _ Hurl Hu). cbn zeta.
        destruct (_ ≫= _) as [r|e]; [|destruct (is_exception e)];
          cbn [snd heap stdout]; (split; [by apply run_keeps|]);
          [apply Hnil|by eexists|apply Hnil].
    + apply Hsame. unfold download_video. by rewrite Hurl.
Qed.

End MoreHandlerFacts.



(** ** More concrete requests *)

Lemma fallback_name_ends_in_mp4_witness :
  resolve_filename Sample.repr_str Sample2.prepare_webm ∅ (PyDict Sample.untimed_video) =
    Ok (PyStr "downloads/My.Clip_1700000000.mp4").
Proof.
  pose proof (fallback_name_ends_in_mp4 Sample.repr_str Sample2.prepare_webm ∅
                Sample.untimed_video "downloads/My.Clip_1700000000.webm"
                eq_refl eq_refl) as (_ & H & _).
  apply (H "downloads/" "M"%char "y.Clip_1700000000" "webm");
    [reflexivity|discriminate|discriminate|reflexivity|reflexivity|reflexivity].
Defined.

Lemma info_success_projection_witness :
  outcome (get_video_info Sample.repr_str Sample.repr_float
             (Sample.extractor (PyDict Sample2.timed_video))
             (Ok (PyDict [("url", PyStr "https://example.com/v")]))) Sample.empty_world =
    Ok (Json 200 [("title", PyStr "Clip");
                  ("thumbnail", PyStr "");
                  ("duration", PyStr "12:34");
                  ("author", PyStr "Unknown Author");
                  ("webpage_url", PyStr "https://example.com/watch?v=1")]).
Proof.
  assert (Hd : format_duration Sample.repr_str Sample.repr_float
                 (default PyNone (assoc "duration" Sample2.timed_video)) = Ok "12:34")
    by (vm_compute; reflexivity).
  exact (proj1 (info_success_projection Sample.repr_str Sample.repr_float
                  (Sample.extractor (PyDict Sample2.timed_video))
                  [("url", PyStr "https://example.com/v")] Sample2.timed_video
                  (PyStr "https://example.com/v") "12:34" Sample.empty_world
                  eq_refl eq_refl eq_refl Hd)).
Defined.

Lemma info_result_not_a_dict_witness :
  printed (get_video_info Sample.repr_str Sample.repr_float (Sample.extractor PyNone)
             (Ok (PyDict [("url", PyStr "https://example.com/v")]))) Sample.empty_world =
    ["Error fetching info: 'NoneType' object has no attribute 'get'"].
Proof.
  refine (proj2 (info_result_not_a_dict Sample.repr_str Sample.repr_float
                   (Sample.extractor PyNone) [("url", PyStr "https://example.com/v")]
                   (PyStr "https://example.com/v") PyNone Sample.empty_world
                   eq_refl eq_refl eq_refl _)).
  intros d. discriminate.
Defined.

Lemma info_non_finite_duration_witness :
  outcome (get_video_info Sample.repr_str Sample.repr_float
             (Sample.extractor (PyDict Sample2.endless_video))
             (Ok (PyDict [("url", PyStr "https://example.com/live")]))) Sample.empty_world =
    Ok (Json 400 [("error", PyStr "Could not fetch video info. Please check the URL.")]).
Proof.
  refine (proj1 (proj2 (info_non_finite_duration Sample.repr_str Sample.repr_float
                          (Sample.extractor (PyDict Sample2.endless_video))
                          [("url", PyStr "https://example.com/live")]
                          Sample2.endless_video (PyStr "https://example.com/live")
                          (S754_infinity false) Sample.empty_world
                          eq_refl eq_refl eq_refl eq_refl _))).
  right. by exists false.
Defined.


Lemma download_file_not_found_witness :
  outcome (download_video Sample.repr_str 1700000000
             (Sample.extractor (PyDict Sample.untimed_video))
             Sample.prepare_filename Sample2.path_missing Sample.send_file
             [("url", "https://example.com/v")]) Sample.empty_world =
    Ok (Json 500 [("error", PyStr "File not found after download")]).
Proof.
  assert (Hf : resolve_filename Sample.repr_str Sample.prepare_filename
                 (request_options 1700000000 "1080p") (PyDict Sample.untimed_video) =
               Ok (PyStr "downloads/Clip_1700000000.mp4"))
    by (vm_compute; reflexivity).
  refine (proj1 (download_file_not_found Sample.repr_str 1700000000
                   (Sample.extractor (PyDict Sample.untimed_video))
                   Sample.prepare_filename Sample2.path_missing Sample.send_file
                   [("url", "https://example.com/v")] "https://example.com/v"
                   (PyDict Sample.untimed_video) (PyStr "downloads/Clip_1700000000.mp4")
                   Sample.empty_world eq_refl _ eq_refl Hf _)).
  - discriminate.
  - right. reflexivity.
Defined.

Lemma download_sends_resolved_file_witness :
  outcome (download_video Sample.repr_str 1700000000
             (Sample.extractor (PyDict Sample.downloaded_video))
             Sample.prepare_filename Sample.path_exists Sample.send_file
             [("url", "https://example.com/v")]) Sample.empty_world =
    Ok (Attachment (PyStr "downloads/Clip_1700000000.mp4")) ∧
  outcome (download_video Sample.repr_str 1700000000
             (Sample.extractor (PyDict Sample.downloaded_video))
             Sample.prepare_filename Sample.path_exists Sample2.send_file_denied
             [("url", "https://example.com/v")]) Sample.empty_world =
    Ok (Json 500 [("error", PyStr "[Errno 13] Permission denied")]) ∧
  outcome (download_video Sample.repr_str 1700000000
             (Sample.extractor (PyDict Sample.downloaded_video))
             Sample.prepare_filename Sample.path_exists Sample2.send_file_interrupted
             [("url", "https://example.com/v")]) Sample.empty_world =
    Raise (Exn "KeyboardInterrupt" "").
Proof.
  assert (Hf : resolve_filename Sample.repr_str Sample.prepare_filename
                 (request_options 1700000000 "1080p") (PyDict Sample.downloaded_video) =
               Ok (PyStr "downloads/Clip_1700000000.mp4"))
    by (vm_compute; reflexivity).
  assert (Hu : "https://example.com/v" ≠ "") by discriminate.
  split; [|split].
  - exact (proj1 (download_sends_resolved_file Sample.repr_str 1700000000
                    (Sample.extractor (PyDict Sample.downloaded_video))
                    Sample.prepare_filename Sample.path_exists Sample.send_file
                    [("url", "https://example.com/v")] "https://example.com/v"
                    (PyDict Sample.downloaded_video)
                    (PyStr "downloads/Clip_1700000000.mp4")
                    Sample.empty_world eq_refl Hu eq_refl Hf eq_refl eq_refl)).
  - exact (proj1 (download_sends_resolved_file Sample.repr_str 1700000000
                    (Sample.extractor (PyDict Sample.downloaded_video))
                    Sample.prepare_filename Sample.path_exists Sample2.send_file_denied
                    [("url", "https://example.com/v")] "https://example.com/v"
                    (PyDict Sample.downloaded_video)
                    (PyStr "downloads/Clip_1700000000.mp4")
                    Sample.empty_world eq_refl Hu eq_refl Hf eq_refl eq_refl)).
  - exact (proj1 (download_sends_resolved_file Sample.repr_str 1700000000
                    (Sample.extractor (PyDict Sample.downloaded_video))
                    Sample.prepare_filename Sample.path_exists Sample2.send_file_interrupted
                    [("url", "https://example.com/v")] "https://example.com/v"
                    (PyDict Sample.downloaded_video)
                    (PyStr "downloads/Clip_1700000000.mp4")
                    Sample.empty_world eq_refl Hu eq_refl Hf eq_refl eq_refl)).
Defined.

Lemma download_empty_list_is_an_error_witness :
  outcome (download_video Sample.repr_str 1700000000
             (Sample.extractor (PyDict Sample2.nothing_downloaded))
             Sample.prepare_filename Sample.path_exists Sample.send_file
             [("url", "https://example.com/v")]) Sample.empty_world =
    Ok (Json 500 [("error", PyStr "list index out of range")]).
Proof.
  refine (proj1 (download_empty_list_is_an_error Sample.repr_str 1700000000
                   (Sample.extractor (PyDict Sample2.nothing_downloaded))
                   Sample.prepare_filename Sample.path_exists Sample.send_file
                   [("url", "https://example.com/v")] "https://example.com/v"
                   Sample2.nothing_downloaded Sample.empty_world
                   eq_refl _ eq_refl eq_refl)).
  discriminate.
Defined.

Lemma download_quality_through_format_witness :
  download_video Sample.repr_str 1700000000 Sample.failing_extractor
    Sample.prepare_filename Sample.path_exists Sample.send_file
    [("url", "https://example.com/v")] Sample.empty_world =
  download_video Sample.repr_str 1700000000 Sample.failing_extractor
    Sample.prepare_filename Sample.path_exists Sample.send_file
    [("url", "https://example.com/v"); ("quality", "p1080")] Sample.empty_world.
Proof.
  exact (download_quality_through_format Sample.repr_str 1700000000
           Sample.failing_extractor Sample.prepare_filename Sample.path_exists
           Sample.send_file [("url", "https://example.com/v")]
           [("url", "https://example.com/v"); ("quality", "p1080")]
           Sample.empty_world eq_refl eq_refl).
Defined.

Lemma handlers_keep_existing_objects_witness :
  heap (snd (download_video Sample.repr_str 1700000000 Sample.failing_extractor
               Sample.prepare_filename Sample.path_exists Sample.send_file
               [("url", "https://example.com/v")] Sample2.busy_world)) !! 0%nat =
    Some info_options.
Proof.
  assert (Hl : is_Some (heap Sample2.busy_world !! 0%nat)).
  { exists info_options. apply lookup_insert_eq. }
  rewrite (proj1 (proj2 (handlers_keep_existing_objects Sample.repr_str
                           Sample.repr_float 1700000000 Sample.failing_extractor
                           Sample.prepare_filename Sample.path_exists Sample.send_file
                           (Ok PyNone) [("url", "https://example.com/v")]
                           Sample2.busy_world 0%nat Hl))).
  apply lookup_insert_eq.
Defined.

